(** * sqlalchemy_jsonapi.declarative.serializer

    A shallow embedding of [JSONAPISerializer] and the properties of its
    rendering pipeline.  Python exceptions are results of type [res];
    Python dictionaries are insertion-ordered association lists with unique
    keys ([odict]); Python sets of names are [gset string].  A Python [str]
    is a [string] whose characters are its code points: the model covers
    the text whose code points are all below 256. *)

From Stdlib Require Import ZArith String Ascii List DecimalString Lia.
From Stdlib Require DecimalPos DecimalZ.
From stdpp Require Import base gmap strings list.

Open Scope string_scope.

(** ** Exceptions *)

Inductive exn : Type :=
| TypeError
| ValueError
| AttributeError
| KeyError.

Inductive res (A : Type) : Type :=
| Ok (a : A)
| Raise (e : exn).

Arguments Ok {A} a.
Arguments Raise {A} e.

Definition bind {A B : Type} (m : res A) (k : A -> res B) : res B :=
  match m with
  | Ok a => k a
  | Raise e => Raise e
  end.

Notation "'let!' x ':=' m 'in' k" := (bind m (fun x => k))
  (at level 10, x name, m at level 100, k at level 200).

(** ** Insertion-ordered dictionaries *)

Module Dict.

Definition odict (V : Type) : Type := list (string * V).

Fixpoint get {V : Type} (k : string) (d : odict V) : option V :=
  match d with
  | [] => None
  | (k', v) :: d' => if String.eqb k k' then Some v else get k d'
  end.

(** [d[k] = v]: an existing key keeps its position, a new key goes last. *)
Fixpoint set {V : Type} (k : string) (v : V) (d : odict V) : odict V :=
  match d with
  | [] => [(k, v)]
  | (k', v') :: d' =>
      if String.eqb k k' then (k, v) :: d' else (k', v') :: set k v d'
  end.

Definition keys {V : Type} (d : odict V) : list string := map fst d.

(** How many entries are stored under [k]. *)
Fixpoint count {V : Type} (k : string) (d : odict V) : nat :=
  match d with
  | [] => 0
  | (k', _) :: d' => (if String.eqb k k' then 1 else 0) + count k d'
  end.

End Dict.

Import Dict.

(** ** Characters and the [inflection] helpers *)

Definition is_upper (c : ascii) : bool :=
  let n := nat_of_ascii c in (65 <=? n)%nat && (n <=? 90)%nat.

Definition is_lower (c : ascii) : bool :=
  let n := nat_of_ascii c in (97 <=? n)%nat && (n <=? 122)%nat.

(** The class [\d] of [re]: among the code points below 256 the decimal
    digits are [0] to [9]. *)
Definition is_digit (c : ascii) : bool :=
  let n := nat_of_ascii c in (48 <=? n)%nat && (n <=? 57)%nat.

(** [str.lower] on one code point below 256: the letters [A] to [Z], and
    the letters from U+00C0 to U+00DE but for the sign U+00D7, move up by
    32; every other code point is its own lower case.  Below 256,
    [str.lower] works code point by code point. *)
Definition lower_char (c : ascii) : ascii :=
  let n := nat_of_ascii c in
  if is_upper c
     || ((192 <=? n)%nat && (n <=? 222)%nat && negb (n =? 215)%nat)
  then ascii_of_nat (n + 32) else c.

(** [str.replace(a, b)] for one-character arguments. *)
Definition replace_char (a b : ascii) (s : list ascii) : list ascii :=
  map (fun c => if Ascii.eqb c a then b else c) s.

(** The longest prefix of upper-case letters, and what follows it. *)
Fixpoint span_upper (s : list ascii) : list ascii * list ascii :=
  match s with
  | c :: t =>
      if is_upper c then let '(run, rest) := span_upper t in (c :: run, rest)
      else ([], s)
  | [] => ([], [])
  end.

(** A match of [([A-Z]+)([A-Z][a-z])] anchored at the head of [s]:
    group 1, the two characters of group 2, and the unmatched tail.  The
    greedy [+] backtracks by one letter only, since the letter of group 2 must
    be followed by a lower-case letter. *)
Definition match_acronym (s : list ascii)
  : option (list ascii * ascii * ascii * list ascii) :=
  let '(run, rest) := span_upper s in
  match rev run, rest with
  | u :: (_ :: _) as g1, c :: rest' =>
      if is_lower c then Some (rev (tl (rev run)), u, c, rest') else None
  | _, _ => None
  end.

(** [re.sub(r"([A-Z]+)([A-Z][a-z])", r'\1_\2', word)]: leftmost,
    non-overlapping matches; [fuel] bounds the number of scan steps. *)
Fixpoint sub_acronym (fuel : nat) (s : list ascii) : list ascii :=
  match fuel with
  | O => s
  | S fuel' =>
      match s with
      | [] => []
      | a :: t =>
          match match_acronym s with
          | Some (g1, u, c, rest) =>
              g1 ++ "_"%char :: u :: c :: sub_acronym fuel' rest
          | None => a :: sub_acronym fuel' t
          end
      end
  end.

(** [re.sub(r"([a-z\d])([A-Z])", r'\1_\2', word)]. *)
Fixpoint sub_camel (s : list ascii) : list ascii :=
  match s with
  | a :: ((b :: t) as t') =>
      if (is_lower a || is_digit a) && is_upper b
      then a :: "_"%char :: b :: sub_camel t
      else a :: sub_camel t'
  | _ => s
  end.

(** The two functions imported from the [inflection] package. *)
Module inflection.

(** [inflection.underscore]. *)
Definition underscore (word : string) : string :=
  let w := list_ascii_of_string word in
  let w := sub_acronym (length w) w in
  let w := sub_camel w in
  let w := replace_char "-"%char "_"%char w in
  string_of_list_ascii (map lower_char w).

(** [inflection.dasherize]. *)
Definition dasherize (word : string) : string :=
  string_of_list_ascii
    (replace_char "_"%char "-"%char (list_ascii_of_string word)).

End inflection.

(** ** Values held by entity attributes *)

(** [datetime.date]. *)
Record date : Type := mkDate {
  d_year : N;
  d_month : N;
  d_day : N
}.

(** [datetime.time]; [t_utcoffset] is [utcoffset()] in microseconds. *)
Record time : Type := mkTime {
  t_hour : N;
  t_minute : N;
  t_second : N;
  t_microsecond : N;
  t_utcoffset : option Z
}.

(** [datetime.datetime]; [utcoffset] is [utcoffset()] in microseconds,
    [None] for a naive value. *)
Record datetime : Type := mkDateTime {
  year : N;
  month : N;
  day : N;
  hour : N;
  minute : N;
  second : N;
  microsecond : N;
  utcoffset : option Z
}.

(** Scalar Python values.  A float is carried by its [repr] text. *)
Inductive value : Type :=
| VNone
| VBool (b : bool)
| VInt (z : Z)
| VFloat (repr : string)
| VStr (s : string)
| VDateTime (dt : datetime)
| VDate (d : date)
| VTime (t : time).

(** Rendered documents: scalars, lists and dictionaries. *)
#[local] Set Warnings "-register-all".
Inductive pyobj : Type :=
| Atom (v : value)
| PList (l : list pyobj)
| PDict (d : list (string * pyobj)).

Definition PNone : pyobj := Atom VNone.
Definition PStr (s : string) : pyobj := Atom (VStr s).

(** ** Number and date formatting *)

Definition dec (n : N) : string := NilZero.string_of_uint (N.to_uint n).

(** ["%0<w>d" % n] for a non-negative [n]. *)
Definition zfill (w : nat) (n : N) : string :=
  let s := dec n in
  string_of_list_ascii (repeat "0"%char (w - String.length s)) ++ s.

(** [datetime._format_time] with [timespec='auto']. *)
Definition format_time (hh mm ss us : N) : string :=
  let hms := zfill 2 hh ++ ":" ++ zfill 2 mm ++ ":" ++ zfill 2 ss in
  if (us =? 0)%N then hms else hms ++ "." ++ zfill 6 us.

(** [datetime._format_offset]. *)
Definition format_offset (off : option Z) : string :=
  match off with
  | None => ""
  | Some off =>
      let sign := if (off <? 0)%Z then "-" else "+" in
      let off := Z.to_N (Z.abs off) in
      let hh := (off / 3600000000)%N in
      let mm := (off mod 3600000000)%N in
      let ss := (mm mod 60000000)%N in
      let mm := (mm / 60000000)%N in
      let s := sign ++ zfill 2 hh ++ ":" ++ zfill 2 mm in
      if (ss =? 0)%N then s
      else
        let s := s ++ ":" ++ zfill 2 (ss / 1000000)%N in
        if (ss mod 1000000 =? 0)%N then s
        else s ++ "." ++ zfill 6 (ss mod 1000000)%N
  end.

Definition date_isoformat (d : date) : string :=
  zfill 4 (d_year d) ++ "-" ++ zfill 2 (d_month d) ++ "-" ++ zfill 2 (d_day d).

Definition time_isoformat (t : time) : string :=
  format_time (t_hour t) (t_minute t) (t_second t) (t_microsecond t)
  ++ format_offset (t_utcoffset t).

(** [datetime.isoformat(sep)]. *)
Definition isoformat_sep (sep : string) (dt : datetime) : string :=
  zfill 4 (year dt) ++ "-" ++ zfill 2 (month dt) ++ "-" ++ zfill 2 (day dt)
  ++ sep
  ++ format_time (hour dt) (minute dt) (second dt) (microsecond dt)
  ++ format_offset (utcoffset dt).

Definition isoformat (dt : datetime) : string := isoformat_sep "T" dt.

(** [str(v)], which is also what ['{}'.format(v)] substitutes. *)
Definition str (v : value) : string :=
  match v with
  | VNone => "None"
  | VBool true => "True"
  | VBool false => "False"
  | VInt z => NilZero.string_of_int (Z.to_int z)
  | VFloat repr => repr
  | VStr s => s
  | VDateTime dt => isoformat_sep " " dt
  | VDate d => date_isoformat d
  | VTime t => time_isoformat t
  end.

(** ** Entities and the serializer class *)

(** What the serializer observes of an object handed to it: the names of
    the classes in [type(obj).__mro__], its truth value, [__tablename__],
    the attributes [getattr] finds, and [__mapper__.relationships] as a
    dictionary from relationship key to the names of its local columns. *)
Record instance : Type := mkInstance {
  mro : list string;
  truth : bool;
  __tablename__ : string;
  attrs : odict value;
  relationships : odict (list string)
}.

(** An argument of [_render_resource]: [None] or an object. *)
Definition resource : Type := option instance.

(** An argument of [serialize]: one object, or something that has a
    [count] attribute and iterates over its members (a list, a query). *)
Inductive resources : Type :=
| One (r : resource)
| Many (items : list resource).

(** The class attributes of a [JSONAPISerializer] subclass. *)
Record JSONAPISerializer : Type := mkSerializer {
  model : option string;
  primary_key : string;
  fields : list string;
  dasherize : bool
}.

(** The class as written, before a subclass overrides anything. *)
Definition defaults : JSONAPISerializer :=
  {| model := None; primary_key := "id"; fields := []; dasherize := true |}.

(** ** Builtins *)

Definition getattr (o : instance) (name : string) : res value :=
  match Dict.get name (attrs o) with
  | Some v => Ok v
  | None => Raise AttributeError
  end.

Definition hasattr (o : instance) (name : string) : bool :=
  match Dict.get name (attrs o) with
  | Some _ => true
  | None => false
  end.

(** [isinstance(o, cls)]; a second argument that is not a class
    raises [TypeError]. *)
Definition isinstance (o : instance) (cls : option string) : res bool :=
  match cls with
  | Some c => Ok (bool_decide (c ∈ mro o))
  | None => Raise TypeError
  end.

(** [d[k]]. *)
Definition subscript {V : Type} (d : odict V) (k : string) : res V :=
  match Dict.get k d with
  | Some v => Ok v
  | None => Raise KeyError
  end.

(** ** The methods of [JSONAPISerializer] *)

Definition __init__ (self : JSONAPISerializer) : res unit :=
  match model self with
  | None => Raise TypeError
  | Some _ =>
      if bool_decide (primary_key self ∈ fields self) then Ok tt
      else Raise ValueError
  end.

(** The set built by the first loop of [_render_attributes]. *)
Definition attrs_to_ignore (r : instance) : gset string :=
  foldl (fun acc kv => acc ∪ (list_to_set (snd kv) ∪ {[fst kv]}))
        ∅ (relationships r).

(** The value expression of the two dictionary comprehensions:
    [dasherize(underscore(x))] when [self.dasherize], else [x]. *)
Definition exposed_name (self : JSONAPISerializer) (x : string) : string :=
  if dasherize self
  then inflection.dasherize (inflection.underscore x) else x.

(** [{x: dasherize(underscore(x)) for x in names}] or
    [{x: x for x in names}]. *)
Definition mapped (self : JSONAPISerializer) (names : list string)
  : odict string :=
  foldl (fun d x => Dict.set x (exposed_name self x) d) [] names.

(** The [isinstance(value, datetime.datetime)] branch. *)
Definition coerce (v : value) : value :=
  match v with
  | VDateTime dt => VStr (isoformat dt)
  | _ => v
  end.

(** The second loop of [_render_attributes], from [todo] on. *)
Fixpoint attributes_loop (self : JSONAPISerializer) (r : instance)
  (ignore : gset string) (mapped_fields : odict string)
  (todo : list string) (attributes : odict value) : res (odict value) :=
  match todo with
  | [] => Ok attributes
  | attribute :: rest =>
      if String.eqb attribute (primary_key self)
      then attributes_loop self r ignore mapped_fields rest attributes
      else if bool_decide (attribute ∈ ignore) then Raise AttributeError
      else
        let! v := getattr r attribute in
        let! key := subscript mapped_fields attribute in
        attributes_loop self r ignore mapped_fields rest
          (Dict.set key (coerce v) attributes)
  end.

Definition _render_attributes (self : JSONAPISerializer) (r : instance)
  : res (odict value) :=
  attributes_loop self r (attrs_to_ignore r) (mapped self (fields self))
    (fields self) [].

Definition self_link (type id name : string) : string :=
  "/" ++ type ++ "/" ++ id ++ "/relationships/" ++ name.

Definition related_link (type id name : string) : string :=
  "/" ++ type ++ "/" ++ id ++ "/" ++ name.

Definition links (type id name : string) : pyobj :=
  PDict [("links",
          PDict [("self", PStr (self_link type id name));
                 ("related", PStr (related_link type id name))])].

(** The loop of [_render_relationships], from [todo] on. *)
Fixpoint relationships_loop (r : instance) (primary_key_val : value)
  (mapped_relationships : odict string) (todo : list string)
  (acc : odict pyobj) : res (odict pyobj) :=
  match todo with
  | [] => Ok acc
  | m :: rest =>
      let! name := subscript mapped_relationships m in
      relationships_loop r primary_key_val mapped_relationships rest
        (Dict.set name (links (__tablename__ r) (str primary_key_val) name)
           acc)
  end.

Definition _render_relationships (self : JSONAPISerializer) (r : instance)
  : res (odict pyobj) :=
  let related_models := Dict.keys (relationships r) in
  let! primary_key_val := getattr r (primary_key self) in
  relationships_loop r primary_key_val (mapped self related_models)
    related_models [].

Definition _render_resource (self : JSONAPISerializer) (rsrc : resource)
  : res pyobj :=
  match rsrc with
  | None => Ok PNone
  | Some r =>
      if negb (truth r) then Ok PNone
      else
        let! ok := isinstance r (model self) in
        if negb ok then Raise TypeError
        else
          let top_level_members := [] in
          let! pk := getattr r (primary_key self) in
          let top_level_members :=
            Dict.set "id" (PStr (str pk)) top_level_members in
          let top_level_members :=
            Dict.set "type" (PStr (__tablename__ r)) top_level_members in
          let! attributes := _render_attributes self r in
          let top_level_members :=
            Dict.set "attributes"
              (PDict (map (fun kv => (fst kv, Atom (snd kv))) attributes))
              top_level_members in
          let! rels := _render_relationships self r in
          let top_level_members :=
            Dict.set "relationships" (PDict rels) top_level_members in
          Ok (PDict top_level_members)
  end.

(** The [for] loop of [serialize]: each rendered member is appended. *)
Fixpoint serialize_loop (self : JSONAPISerializer) (todo : list resource)
  (data : list pyobj) : res (list pyobj) :=
  match todo with
  | [] => Ok data
  | rsrc :: rest =>
      let! rendered := _render_resource self rsrc in
      serialize_loop self rest (data ++ [rendered])
  end.

Definition envelope : odict pyobj :=
  [("meta", PDict [("sqlalchemy_jsonapi_version", PStr "4.0.9")]);
   ("jsonapi", PDict [("version", PStr "1.0")])].

Definition serialize (self : JSONAPISerializer) (rs : resources)
  : res pyobj :=
  let serialized := envelope in
  match rs with
  | Many items =>
      let! data := serialize_loop self items [] in
      Ok (PDict (Dict.set "data" (PList data) serialized))
  | One (Some o) =>
      (* an object with a [count] attribute takes the [for] branch, and
         iterating over something that is not iterable raises *)
      if hasattr o "count" then Raise TypeError
      else
        let! data := _render_resource self (Some o) in
        Ok (PDict (Dict.set "data" data serialized))
  | One None =>
      let! data := _render_resource self None in
      Ok (PDict (Dict.set "data" data serialized))
  end.

(** ** Vocabulary of the statements *)

(** [not resource] holds. *)
Definition falsy (rsrc : resource) : bool :=
  match rsrc with
  | None => true
  | Some r => negb (truth r)
  end.

(** [type(r)], the first class of the method resolution order. *)
Definition class_of (r : instance) : option string := head (mro r).

(** What [underscore] and then [dasherize] do to one character once the
    two substitutions of [underscore] are done. *)
Definition kebab_char (c : ascii) : ascii :=
  let c := lower_char (if Ascii.eqb c "-"%char then "_"%char else c) in
  if Ascii.eqb c "_"%char then "-"%char else c.





(** Date and time values of the [datetime] module. *)
Definition is_temporal (v : value) : bool :=
  match v with
  | VDateTime _ | VDate _ | VTime _ => true
  | _ => false
  end.

(** The ISO-8601 text of a temporal value. *)
Definition iso8601 (v : value) : option string :=
  match v with
  | VDateTime dt => Some (isoformat dt)
  | VDate d => Some (date_isoformat d)
  | VTime t => Some (time_isoformat t)
  | _ => None
  end.

(** The entity as a second call finds it agrees with the entity as the
    first call found it on everything the serializer reads. *)
Definition unmutated (self : JSONAPISerializer) (before after : resource)
  : Prop :=
  match before, after with
  | None, None => True
  | Some r, Some r' =>
      truth r = truth r' /\ mro r = mro r' /\
      __tablename__ r = __tablename__ r' /\
      relationships r = relationships r' /\
      forall f, f = primary_key self \/ f ∈ fields self ->
                Dict.get f (attrs r) = Dict.get f (attrs r')
  | _, _ => False
  end.

(** A field the attribute loop can render: not excluded and present on the
    entity. *)
Definition renderable (r : instance) (ignore : gset string) (f : string)
  : Prop :=
  (f ∉ ignore) /\ is_Some (Dict.get f (attrs r)).

(** The document [serialize] returns around [data]. *)
Definition document (data : pyobj) : pyobj :=
  PDict [("meta", PDict [("sqlalchemy_jsonapi_version", PStr "4.0.9")]);
         ("jsonapi", PDict [("version", PStr "1.0")]);
         ("data", data)].

(** The resource object of an entity. *)
Definition resource_object (id type : string) (attributes : odict value)
  (rels : odict pyobj) : pyobj :=
  PDict [("id", PStr id); ("type", PStr type);
         ("attributes",
          PDict (map (fun kv => (fst kv, Atom (snd kv))) attributes));
         ("relationships", PDict rels)].

(** ** Sample data *)

Definition ArticleSerializer : JSONAPISerializer :=
  {| model := Some "Article"; primary_key := "id";
     fields := ["id"; "fullName"; "created_at"]; dasherize := true |}.

Definition created : datetime :=
  mkDateTime 2017 3 9 8 5 0 0 (Some 19800000000%Z).

Definition article (id : Z) (name : string) : instance :=
  {| mro := ["Article"; "Base"; "object"]; truth := true;
     __tablename__ := "articles";
     attrs := [("id", VInt id); ("fullName", VStr name);
               ("created_at", VDateTime created);
               ("author_id", VInt 7)];
     relationships := [("author", ["author_id"])] |}.

(** What [article id name] renders to under [ArticleSerializer]. *)
Definition rendered_article (id name : string) : pyobj :=
  resource_object id "articles"
    [("full-name", VStr name);
     ("created-at", VStr "2017-03-09T08:05:00+05:30")]
    [("author", links "articles" id "author")].

(** A serializer for people, exposing names verbatim. *)
Definition PersonSerializer : JSONAPISerializer :=
  {| model := Some "Person"; primary_key := "id";
     fields := ["id"; "born"]; dasherize := false |}.

(** A person whose [born] column is a [datetime.date]. *)
Definition person : instance :=
  {| mro := ["Person"; "Base"; "object"]; truth := true;
     __tablename__ := "people";
     attrs := [("id", VInt 1); ("born", VDate (mkDate 1990 5 17))];
     relationships := [] |}.

(** An instance of a subclass of [Article]. *)
Definition featured : instance :=
  {| mro := ["FeaturedArticle"; "Article"; "Base"; "object"]; truth := true;
     __tablename__ := "articles";
     attrs := [("id", VInt 8); ("fullName", VStr "Eve");
               ("created_at", VNone); ("rank", VInt 1)];
     relationships := [] |}.

(** An article row that lacks the declared [created_at] column. *)
Definition stub : instance :=
  {| mro := ["Article"; "Base"; "object"]; truth := true;
     __tablename__ := "articles";
     attrs := [("id", VInt 5); ("fullName", VStr "Ann")];
     relationships := [] |}.

(** An object of another class whose truth value is false. *)
Definition empty_basket : instance :=
  {| mro := ["Basket"; "object"]; truth := false;
     __tablename__ := "baskets";
     attrs := [("id", VInt 2)];
     relationships := [] |}.

(** An object of another class whose truth value is true. *)
Definition basket : instance :=
  {| mro := ["Basket"; "object"]; truth := true;
     __tablename__ := "baskets";
     attrs := [("id", VInt 2)];
     relationships := [] |}.

(** A serializer that lists a foreign-key column among its fields. *)
Definition LeakySerializer : JSONAPISerializer :=
  {| model := Some "Article"; primary_key := "id";
     fields := ["id"; "fullName"; "author_id"]; dasherize := true |}.

(** The fields the attribute loop renders: all but the primary key, in
    declared order. *)
Definition exposed_fields (self : JSONAPISerializer) : list string :=
  List.filter (fun f => negb (String.eqb f (primary_key self))) (fields self).

(** [s.lower() == s]: a name already in lower case. *)
Definition is_lowered (s : string) : bool :=
  forallb (fun c => Ascii.eqb (lower_char c) c) (list_ascii_of_string s).

(** [word.replace('_', '-')], the whole effect of dasherizing a name that
    is already in lower case. *)
Definition hyphenate (s : string) : string :=
  string_of_list_ascii
    (map (fun c => if Ascii.eqb c "_"%char then "-"%char else c)
         (list_ascii_of_string s)).

(** A serializer that lists the attribute [authorId]. *)
Definition AliasSerializer : JSONAPISerializer :=
  {| model := Some "Article"; primary_key := "id";
     fields := ["id"; "authorId"]; dasherize := true |}.

(** An article whose [author] relationship has the local column
    [author_id] and which carries the attribute [authorId]. *)
Definition aliased : instance :=
  {| mro := ["Article"; "Base"; "object"]; truth := true;
     __tablename__ := "articles";
     attrs := [("id", VInt 5); ("authorId", VInt 7)];
     relationships := [("author", ["author_id"])] |}.

(** The name [Eclair_x] spelt with U+00C9, and [eclair-x] with U+00E9. *)
Definition Eclair_x : string := String (ascii_of_nat 201) "clair_x".
Definition eclair_x : string := String (ascii_of_nat 233) "clair-x".

(** A serializer whose two fields are exposed under one name. *)
Definition ClashSerializer : JSONAPISerializer :=
  {| model := Some "Article"; primary_key := "id";
     fields := ["id"; "full_name"; "fullName"]; dasherize := true |}.

(** An article row with both spellings of the name column. *)
Definition twice_named : instance :=
  {| mro := ["Article"; "Base"; "object"]; truth := true;
     __tablename__ := "articles";
     attrs := [("id", VInt 5); ("full_name", VStr "old");
               ("fullName", VStr "new")];
     relationships := [] |}.

(** ** Dictionary facts *)

Section DictFacts.
Context {V : Type}.
Implicit Types (d : odict V) (k : string) (v : V).

Lemma get_set_eq k v d : Dict.get k (Dict.set k v d) = Some v.
Proof.
  induction d as [|[k' v'] d IH]; simpl.
  - by rewrite String.eqb_refl.
  - destruct (String.eqb k k') eqn:E; simpl.
    + by rewrite String.eqb_refl.
    + by rewrite E.
Qed.

Lemma get_set_ne k k' v d :
  k <> k' -> Dict.get k' (Dict.set k v d) = Dict.get k' d.
Proof.
  intros Hne. induction d as [|[k0 v0] d IH]; simpl.
  - apply String.eqb_neq in Hne. rewrite String.eqb_sym in Hne.
    by rewrite Hne.
  - destruct (String.eqb k k0) eqn:E; simpl.
    + apply String.eqb_eq in E. subst k0.
      assert (String.eqb k' k = false) as ->; [|done].
      apply String.eqb_neq. congruence.
    + by rewrite IH.
Qed.

Lemma get_set k k' v d :
  Dict.get k' (Dict.set k v d) =
  if String.eqb k k' then Some v else Dict.get k' d.
Proof.
  destruct (String.eqb_spec k k') as [->|Hne].
  - apply get_set_eq.
  - by apply get_set_ne.
Qed.

Lemma get_in_keys k d : is_Some (Dict.get k d) <-> k ∈ Dict.keys d.
Proof.
  induction d as [|[k' v'] d IH]; simpl.
  - split; [intros [? ?]; discriminate | intros H; inversion H].
  - destruct (String.eqb_spec k k') as [->|Hne].
    + split; [intros _; left | eauto].
    + rewrite IH. split; [by right|].
      intros H. inversion H; subst; [done | assumption].
Qed.

Lemma keys_set k v d :
  Dict.keys (Dict.set k v d) =
  if bool_decide (k ∈ Dict.keys d) then Dict.keys d
  else (Dict.keys d ++ [k])%list.
Proof.
  induction d as [|[k' v'] d IH]; simpl.
  - done.
  - destruct (String.eqb_spec k k') as [->|Hne]; simpl.
    + rewrite bool_decide_eq_true_2; [done | left].
    + rewrite IH. case_bool_decide as H1; case_bool_decide as H2; try done.
      * exfalso. apply H2. by right.
      * exfalso. inversion H2; subst; done.
Qed.

Lemma NoDup_keys_set k v d :
  NoDup (Dict.keys d) -> NoDup (Dict.keys (Dict.set k v d)).
Proof.
  intros Hd. rewrite keys_set. case_bool_decide as H; [done|].
  apply NoDup_app. split_and!; [done | | apply NoDup_singleton].
  intros x Hx Hx'. apply list_elem_of_singleton in Hx'. by subst.
Qed.

Lemma count_notin k d : k ∉ Dict.keys d -> Dict.count k d = 0.
Proof.
  induction d as [|[k' v'] d IH]; intros Hk; [done|].
  simpl in *. destruct (String.eqb_spec k k') as [->|Hne].
  - exfalso. apply Hk. left.
  - apply IH. intros H. apply Hk. by right.
Qed.

Lemma count_NoDup k d :
  NoDup (Dict.keys d) -> k ∈ Dict.keys d -> Dict.count k d = 1.
Proof.
  induction d as [|[k' v'] d IH]; intros Hd Hk; [inversion Hk|].
  simpl in *. apply NoDup_cons in Hd as [Hnotin Hd].
  destruct (String.eqb_spec k k') as [->|Hne].
  - by rewrite count_notin.
  - apply IH; [done|]. inversion Hk; subst; done.
Qed.

End DictFacts.

(** ** The name dictionaries and the exclusion set *)

Lemma mapped_from_get self names d x :
  Dict.get x (foldl (fun d x => Dict.set x (exposed_name self x) d) d names)
  = if bool_decide (x ∈ names) then Some (exposed_name self x)
    else Dict.get x d.
Proof.
  revert d. induction names as [|y names IH]; intros d; simpl; [done|].
  rewrite IH. case_bool_decide as Hin.
  - rewrite bool_decide_eq_true_2; [done | by right].
  - rewrite get_set. destruct (String.eqb_spec y x) as [->|Hne].
    + rewrite bool_decide_eq_true_2; [done | left].
    + rewrite bool_decide_eq_false_2; [done|].
      intros H. inversion H; subst; done.
Qed.

Lemma mapped_get self names x :
  x ∈ names -> Dict.get x (mapped self names) = Some (exposed_name self x).
Proof.
  intros Hx. unfold mapped. rewrite mapped_from_get.
  by rewrite bool_decide_eq_true_2.
Qed.

Lemma subscript_mapped self names x :
  x ∈ names -> subscript (mapped self names) x = Ok (exposed_name self x).
Proof. intros Hx. unfold subscript. by rewrite mapped_get. Qed.

Lemma ignore_from_elem (rels : odict (list string)) (acc : gset string) x :
  x ∈ foldl (fun acc kv => acc ∪ (list_to_set (snd kv) ∪ {[fst kv]}))
            acc rels
  <-> x ∈ acc \/
      exists key cols, (key, cols) ∈ rels /\ (x = key \/ x ∈ cols).
Proof.
  revert acc. induction rels as [|[key cols] rels IH]; intros acc; simpl.
  - split; [by left|]. intros [H|(? & ? & H & _)]; [done | inversion H].
  - rewrite IH. rewrite !elem_of_union, elem_of_list_to_set,
      elem_of_singleton. split.
    + intros [[H|[H|H]]|(k & c & Hin & H)].
      * by left.
      * right. exists key, cols. split; [left | by right].
      * right. exists key, cols. split; [left | by left].
      * right. exists k, c. split; [by right | done].
    + intros [H|(k & c & Hin & H)]; [by left; left|].
      inversion Hin; subst.
      * left. right. destruct H; [by right | by left].
      * right. by exists k, c.
Qed.

Lemma attrs_to_ignore_elem r x :
  x ∈ attrs_to_ignore r <->
  exists key cols, (key, cols) ∈ relationships r /\ (x = key \/ x ∈ cols).
Proof.
  unfold attrs_to_ignore. rewrite ignore_from_elem. split; [|by right].
  intros [H|H]; [set_solver | done].
Qed.

(** ** The attribute loop *)

Section AttributeLoop.
Variable self : JSONAPISerializer.
Variable r : instance.
Variable ignore : gset string.
Variable mapped_fields : odict string.

Lemma attributes_loop_raises todo acc e :
  (forall f, f ∈ todo ->
             Dict.get f mapped_fields = Some (exposed_name self f)) ->
  attributes_loop self r ignore mapped_fields todo acc = Raise e ->
  e = AttributeError.
Proof.
  revert acc. induction todo as [|f todo IH]; intros acc Hmap; simpl.
  - discriminate.
  - assert (forall g, g ∈ todo ->
              Dict.get g mapped_fields = Some (exposed_name self g)) as Hmap'
      by (intros g Hg; apply Hmap; by right).
    destruct (String.eqb f (primary_key self)); [by apply IH|].
    case_bool_decide; [congruence|].
    unfold getattr, subscript. rewrite (Hmap f); [|left].
    destruct (Dict.get f (attrs r)); simpl; [by apply IH | congruence].
Qed.

Lemma attributes_loop_excluded todo acc f :
  (forall g, g ∈ todo ->
             Dict.get g mapped_fields = Some (exposed_name self g)) ->
  f ∈ todo -> f <> primary_key self -> f ∈ ignore ->
  attributes_loop self r ignore mapped_fields todo acc = Raise AttributeError.
Proof.
  intros Hmap Hin Hpk Hign.
  destruct (attributes_loop self r ignore mapped_fields todo acc)
    as [out|e] eqn:E.
  - exfalso. revert acc E.
    induction todo as [|g todo IH]; intros acc E; [inversion Hin|].
    simpl in E.
    assert (forall h, h ∈ todo ->
              Dict.get h mapped_fields = Some (exposed_name self h)) as Hmap'
      by (intros h Hh; apply Hmap; by right).
    destruct (String.eqb_spec g (primary_key self)) as [Hg|Hg].
    + inversion Hin; subst; [done | eauto].
    + case_bool_decide as Hgi; [discriminate|].
      unfold getattr, subscript in E. rewrite (Hmap g) in E; [|left].
      destruct (Dict.get g (attrs r)); simpl in E; [|discriminate].
      inversion Hin; subst; [done | eauto].
  - f_equal. by eapply attributes_loop_raises.
Qed.

Lemma attributes_loop_ok_iff todo acc :
  (forall f, f ∈ todo ->
             Dict.get f mapped_fields = Some (exposed_name self f)) ->
  (exists out,
     attributes_loop self r ignore mapped_fields todo acc = Ok out) <->
  (forall f, f ∈ todo -> f <> primary_key self -> renderable r ignore f).
Proof.
  revert acc. induction todo as [|g todo IH]; intros acc Hmap; simpl.
  - split; [intros _ f Hf; inversion Hf | eauto].
  - assert (forall h, h ∈ todo ->
              Dict.get h mapped_fields = Some (exposed_name self h)) as Hmap'
      by (intros h Hh; apply Hmap; by right).
    destruct (String.eqb_spec g (primary_key self)) as [Hg|Hg].
    + rewrite IH; [|done]. split.
      * intros H f Hf Hne. inversion Hf; subst; [done | by apply H].
      * intros H f Hf. apply H. by right.
    + case_bool_decide as Hgi.
      * split; [intros [? ?]; discriminate|].
        intros H. destruct (H g) as [Hn _]; [left | done | done].
      * unfold getattr, subscript. rewrite (Hmap g); [|left].
        destruct (Dict.get g (attrs r)) as [v|] eqn:Ev; simpl.
        -- rewrite IH; [|done]. split.
           ++ intros H f Hf Hne. inversion Hf; subst; [|by apply H].
              split; [done | by rewrite Ev].
           ++ intros H f Hf. apply H. by right.
        -- split; [intros [? ?]; discriminate|].
           intros H. destruct (H g) as [_ [? Hs]]; [left | done |].
           rewrite Ev in Hs. discriminate.
Qed.

(** Where each entry of the result comes from. *)
Lemma attributes_loop_provenance todo acc out k w :
  (forall f, f ∈ todo ->
             Dict.get f mapped_fields = Some (exposed_name self f)) ->
  attributes_loop self r ignore mapped_fields todo acc = Ok out ->
  Dict.get k out = Some w ->
  Dict.get k acc = Some w \/
  exists f v, f ∈ todo /\ f <> primary_key self /\ (f ∉ ignore) /\
              k = exposed_name self f /\
              Dict.get f (attrs r) = Some v /\ w = coerce v.
Proof.
  revert acc. induction todo as [|g todo IH]; intros acc Hmap; simpl.
  - intros [= ->] Hk. by left.
  - assert (forall h, h ∈ todo ->
              Dict.get h mapped_fields = Some (exposed_name self h)) as Hmap'
      by (intros h Hh; apply Hmap; by right).
    destruct (String.eqb_spec g (primary_key self)) as [Hg|Hg].
    + intros E Hk. destruct (IH acc Hmap' E Hk) as [H|(f & v & Hf & H)];
        [by left|]. right. exists f, v. split; [by right | done].
    + case_bool_decide as Hgi; [discriminate|].
      unfold getattr, subscript. rewrite (Hmap g); [|left].
      destruct (Dict.get g (attrs r)) as [v|] eqn:Ev; simpl; [|discriminate].
      intros E Hk. destruct (IH _ Hmap' E Hk) as [H|(f & v' & Hf & H)].
      * rewrite get_set in H.
        destruct (String.eqb_spec (exposed_name self g) k) as [<-|Hne];
          [|by left].
        right. exists g, v. inversion H; subst.
        split_and!; try done. left.
      * right. exists f, v'. split; [by right | done].
Qed.

(** The loop never removes a key. *)
Lemma attributes_loop_keeps todo acc out k :
  attributes_loop self r ignore mapped_fields todo acc = Ok out ->
  is_Some (Dict.get k acc) -> is_Some (Dict.get k out).
Proof.
  revert acc. induction todo as [|g todo IH]; intros acc; simpl.
  - by intros [= ->].
  - destruct (String.eqb g (primary_key self)); [by apply IH|].
    case_bool_decide; [discriminate|].
    destruct (getattr r g); simpl; [|discriminate].
    destruct (subscript mapped_fields g) as [key|]; simpl; [|discriminate].
    intros E Hs. eapply IH; [exact E|].
    rewrite get_set. destruct (String.eqb key k); eauto.
Qed.

(** Every rendered field has an entry under its exposed name, holding the
    coerced value of the last field exposed under that name. *)
Lemma attributes_loop_coverage todo acc out f :
  (forall g, g ∈ todo ->
             Dict.get g mapped_fields = Some (exposed_name self g)) ->
  attributes_loop self r ignore mapped_fields todo acc = Ok out ->
  f ∈ todo -> f <> primary_key self ->
  exists g v, g ∈ todo /\ g <> primary_key self /\
              exposed_name self g = exposed_name self f /\
              Dict.get g (attrs r) = Some v /\
              Dict.get (exposed_name self f) out = Some (coerce v).
Proof.
  revert acc. induction todo as [|h todo IH]; intros acc Hmap E Hin Hpk;
    [inversion Hin|].
  simpl in E.
  assert (forall g, g ∈ todo ->
            Dict.get g mapped_fields = Some (exposed_name self g)) as Hmap'
    by (intros g Hg; apply Hmap; by right).
  assert (forall acc',
            attributes_loop self r ignore mapped_fields todo acc' = Ok out ->
            f ∈ todo ->
            exists g v, g ∈ h :: todo /\ g <> primary_key self /\
              exposed_name self g = exposed_name self f /\
              Dict.get g (attrs r) = Some v /\
              Dict.get (exposed_name self f) out = Some (coerce v)) as Later.
  { intros acc' E' Hf.
    destruct (IH acc' Hmap' E' Hf Hpk) as (g & v & Hg & H).
    exists g, v. split; [by right | done]. }
  destruct (String.eqb_spec h (primary_key self)) as [Hh|Hh].
  - inversion Hin; subst; [done | eauto].
  - case_bool_decide as Hhi; [discriminate|].
    unfold getattr, subscript in E. rewrite (Hmap h) in E; [|left].
    destruct (Dict.get h (attrs r)) as [v|] eqn:Ev; simpl in E;
      [|discriminate].
    destruct (decide (f ∈ todo)) as [Hf|Hf]; [eauto|].
    apply elem_of_cons in Hin as [<-|Hin]; [|done].
    (* [f] is the head and does not occur again: its entry survives
       unless a later field is exposed under the same name *)
    destruct (Dict.get (exposed_name self f) out) as [w|] eqn:Ew.
    + destruct (attributes_loop_provenance _ _ _ _ _ Hmap' E Ew)
        as [H|(g & v' & Hg & Hgpk & _ & Hname & Hv & ->)].
      * rewrite get_set_eq in H. inversion H; subst.
        exists f, v. split_and!; try done. left.
      * exists g, v'. split_and!; try done. by right.
    + exfalso.
      assert (is_Some (Dict.get (exposed_name self f) out)) as [? Hs].
      { eapply attributes_loop_keeps; [exact E|].
        rewrite get_set_eq. eauto. }
      congruence.
Qed.

Lemma attributes_loop_NoDup todo acc out :
  attributes_loop self r ignore mapped_fields todo acc = Ok out ->
  NoDup (Dict.keys acc) -> NoDup (Dict.keys out).
Proof.
  revert acc. induction todo as [|g todo IH]; intros acc; simpl.
  - by intros [= ->].
  - destruct (String.eqb g (primary_key self)); [by apply IH|].
    case_bool_decide; [discriminate|].
    destruct (getattr r g); simpl; [|discriminate].
    destruct (subscript mapped_fields g); simpl; [|discriminate].
    intros E Hd. eapply IH; [exact E|]. by apply NoDup_keys_set.
Qed.

End AttributeLoop.

(** ** The relationship loop *)

Section RelationshipLoop.
Variable self : JSONAPISerializer.
Variable r : instance.
Variable primary_key_val : value.
Variable mapped_relationships : odict string.

Lemma relationships_loop_get todo acc :
  (forall m, m ∈ todo ->
             Dict.get m mapped_relationships = Some (exposed_name self m)) ->
  exists out,
    relationships_loop r primary_key_val mapped_relationships todo acc
    = Ok out /\
    (NoDup (Dict.keys acc) -> NoDup (Dict.keys out)) /\
    forall k, Dict.get k out =
              if bool_decide (k ∈ map (exposed_name self) todo)
              then Some (links (__tablename__ r) (str primary_key_val) k)
              else Dict.get k acc.
Proof.
  revert acc. induction todo as [|m todo IH]; intros acc Hmap; simpl.
  - exists acc. split_and!; done.
  - unfold subscript. rewrite (Hmap m); [|left]. simpl.
    destruct (IH (Dict.set (exposed_name self m)
                    (links (__tablename__ r) (str primary_key_val)
                       (exposed_name self m)) acc))
      as (out & E & Hnd & Hget).
    { intros m' Hm'. apply Hmap. by right. }
    exists out. split_and!; [done | |].
    + intros Hd. by apply Hnd, NoDup_keys_set.
    + intros k. rewrite Hget, get_set.
      case_bool_decide as Hk.
      * rewrite bool_decide_eq_true_2; [done | by right].
      * destruct (String.eqb_spec (exposed_name self m) k) as [<-|Hne].
        -- rewrite bool_decide_eq_true_2; [done | left].
        -- rewrite bool_decide_eq_false_2; [done|].
           intros H. inversion H; subst; done.
Qed.

End RelationshipLoop.

Lemma render_relationships_get self r v :
  getattr r (primary_key self) = Ok v ->
  exists rels,
    _render_relationships self r = Ok rels /\
    NoDup (Dict.keys rels) /\
    forall k, Dict.get k rels =
              if bool_decide
                   (k ∈ map (exposed_name self) (Dict.keys (relationships r)))
              then Some (links (__tablename__ r) (str v) k) else None.
Proof.
  intros Hpk. unfold _render_relationships. rewrite Hpk. simpl.
  destruct (relationships_loop_get self r v
              (mapped self (Dict.keys (relationships r)))
              (Dict.keys (relationships r)) [])
    as (out & E & Hnd & Hget).
  { intros m Hm. by apply mapped_get. }
  exists out. split_and!; [done | apply Hnd; constructor | done].
Qed.

(** ** [_render_attributes] *)

Lemma render_attributes_raises self r e :
  _render_attributes self r = Raise e -> e = AttributeError.
Proof.
  apply attributes_loop_raises. intros f Hf. by apply mapped_get.
Qed.

Lemma render_attributes_ok_iff self r :
  (exists out, _render_attributes self r = Ok out) <->
  (forall f, f ∈ fields self -> f <> primary_key self ->
             renderable r (attrs_to_ignore r) f).
Proof.
  apply attributes_loop_ok_iff. intros f Hf. by apply mapped_get.
Qed.

(** ** [_render_resource] *)

(** The four members, in the order the method sets them. *)
Lemma render_resource_unfold self r c v :
  truth r = true -> model self = Some c -> c ∈ mro r ->
  getattr r (primary_key self) = Ok v ->
  _render_resource self (Some r) =
  let! attributes := _render_attributes self r in
  let! rels := _render_relationships self r in
  Ok (resource_object (str v) (__tablename__ r) attributes rels).
Proof.
  intros Ht Hm Hc Hpk. unfold _render_resource, isinstance.
  rewrite Ht, Hm. simpl. rewrite bool_decide_eq_true_2; [|done]. simpl.
  rewrite Hpk. simpl.
  destruct (_render_attributes self r); simpl; [|done].
  destruct (_render_relationships self r); simpl; done.
Qed.

(** The loop of [serialize] renders the members one after the other. *)
Lemma serialize_loop_app self items rendered data :
  Forall2 (fun x y => _render_resource self x = Ok y) items rendered ->
  serialize_loop self items data = Ok (data ++ rendered)%list.
Proof.
  intros H. revert data. induction H as [|x y items rendered Hx _ IH];
    intros data; simpl.
  - by rewrite app_nil_r.
  - rewrite Hx. simpl. rewrite IH. by rewrite <- app_assoc.
Qed.

(** ** [inflection]: the shape of dasherized names *)

Lemma span_upper_app s :
  s = (fst (span_upper s) ++ snd (span_upper s))%list.
Proof.
  induction s as [|c s IH]; simpl; [done|].
  destruct (is_upper c); [|done].
  destruct (span_upper s) as [run rest]. simpl in *. by f_equal.
Qed.

Lemma match_acronym_app s g1 u c rest :
  match_acronym s = Some (g1, u, c, rest) ->
  s = (g1 ++ u :: c :: rest)%list.
Proof.
  unfold match_acronym. intros H.
  rewrite (span_upper_app s) at 1.
  destruct (span_upper s) as [run rest0]. simpl.
  destruct (rev run) as [|u' [|x g]] eqn:Er; try discriminate.
  destruct rest0 as [|c' rest']; [discriminate|].
  destruct (is_lower c'); [|discriminate].
  inversion H; subst. clear H.
  rewrite <- (rev_involutive run), Er. simpl.
  by rewrite <- !app_assoc.
Qed.

(** The scan of [sub_acronym] never runs out of fuel in [underscore]: any
    fuel of at least the length of the word gives the same result. *)
Lemma sub_acronym_fuel fuel fuel' s :
  length s <= fuel -> length s <= fuel' ->
  sub_acronym fuel s = sub_acronym fuel' s.
Proof.
  revert fuel' s. induction fuel as [|fuel IH]; intros fuel' s H1 H2.
  - destruct s; [|simpl in H1; lia]. by destruct fuel'.
  - destruct s as [|a t]; [by destruct fuel'|].
    destruct fuel' as [|fuel']; [simpl in H2; lia|].
    simpl in H1, H2. simpl sub_acronym.
    destruct (match_acronym (a :: t)) as [[[[g1 u] c] rest]|] eqn:E.
    + apply match_acronym_app in E.
      assert (length rest <= length t) as Hlen.
      { apply (f_equal (@length ascii)) in E.
        rewrite length_app in E. simpl in E. lia. }
      do 4 f_equal. apply IH; lia.
    + f_equal. apply IH; lia.
Qed.

Section Preserved.
Variable P : ascii -> Prop.
Hypothesis P_underscore : P "_"%char.



End Preserved.

Lemma dasherize_underscore_chars x :
  list_ascii_of_string (inflection.dasherize (inflection.underscore x)) =
  map kebab_char
      (sub_camel (sub_acronym (length (list_ascii_of_string x))
                    (list_ascii_of_string x))).
Proof.
  unfold inflection.dasherize, inflection.underscore, replace_char.
  rewrite !list_ascii_of_string_of_list_ascii, !map_map.
  by apply map_ext.
Qed.


Lemma kebab_char_clean c :
  is_upper (kebab_char c) = false /\ kebab_char c <> "_"%char.
Proof.
  destruct c as [[] [] [] [] [] [] [] []]; vm_compute; split; congruence.
Qed.


Lemma dasherized_clean x c :
  In c (list_ascii_of_string
          (inflection.dasherize (inflection.underscore x))) ->
  is_upper c = false /\ c <> "_"%char.
Proof.
  rewrite dasherize_underscore_chars. intros H.
  apply in_map_iff in H as (c0 & <- & _). apply kebab_char_clean.
Qed.

(** * The claims *)

(** C2.  Constructing a serializer fails exactly when the model is unset
    or the primary key is not among the fields: with [TypeError] in the
    first case, with [ValueError] in the second (the model being set), and
    it succeeds when the model is set and the primary key is a field. *)
Theorem init_fails_iff (self : JSONAPISerializer) :
  ((exists e, __init__ self = Raise e) <->
   model self = None \/ primary_key self ∉ fields self) /\
  (__init__ self = Raise TypeError <-> model self = None) /\
  (__init__ self = Raise ValueError <->
   model self <> None /\ primary_key self ∉ fields self) /\
  (__init__ self = Ok tt <->
   model self <> None /\ primary_key self ∈ fields self).
Proof.
  unfold __init__. destruct (model self) as [c|].
  - case_bool_decide as Hpk.
    + split_and!; split; try done.
      * intros [e H]. discriminate.
      * intros [H|H]; [discriminate | done].
      * intros [_ H]. done.
    + split_and!; split; try done.
      * intros _. by right.
      * eauto.
      * intros [_ H]. done.
  - split_and!; split; try done.
    + intros _. by left.
    + eauto.
    + intros [H _]. done.
    + intros [H _]. done.
Qed.

Lemma init_fails_iff_witness :
  __init__ defaults = Raise TypeError /\
  __init__ ArticleSerializer = Ok tt.
Proof.
  split.
  - apply (proj1 (proj2 (init_fails_iff defaults))). reflexivity.
  - apply (proj2 (proj2 (proj2 (init_fails_iff ArticleSerializer)))).
    split; [discriminate | left].
Defined.

(** C1, as the code has it.  For every valid configuration and every
    truthy instance of the configured model that has the primary-key
    attribute and whose other declared fields are all present and outside
    the exclusion set, [_render_resource] returns a resource object whose
    ['id'] member is the string conversion of the primary-key value and
    whose ['type'] member is the entity's [__tablename__]. *)
Theorem render_resource_id_type
  (self : JSONAPISerializer) (r : instance) (v : value) :
  __init__ self = Ok tt ->
  truth r = true ->
  isinstance r (model self) = Ok true ->
  getattr r (primary_key self) = Ok v ->
  (forall f, f ∈ fields self -> f <> primary_key self ->
             renderable r (attrs_to_ignore r) f) ->
  exists d,
    _render_resource self (Some r) = Ok (PDict d) /\
    Dict.get "id" d = Some (PStr (str v)) /\
    Dict.get "type" d = Some (PStr (__tablename__ r)).
Proof.
  intros _ Ht Hinst Hpk Hfields.
  unfold isinstance in Hinst. destruct (model self) as [c|] eqn:Hm;
    [|discriminate].
  injection Hinst as Hc. apply bool_decide_eq_true_1 in Hc.
  rewrite (render_resource_unfold self r c v) by done.
  apply render_attributes_ok_iff in Hfields as [attributes ->].
  destruct (render_relationships_get self r v Hpk) as (rels & -> & _).
  simpl. eexists. split; [reflexivity|]. done.
Qed.

Lemma render_resource_id_type_witness :
  exists d,
    _render_resource ArticleSerializer (Some (article 5 "Ann")) = Ok (PDict d)
    /\ Dict.get "id" d = Some (PStr "5")
    /\ Dict.get "type" d = Some (PStr "articles").
Proof.
  apply (render_resource_id_type ArticleSerializer (article 5 "Ann")
           (VInt 5)); try reflexivity.
  intros f Hf Hpk. unfold renderable.
  repeat (apply elem_of_cons in Hf as [->|Hf]);
    [done | | | by apply elem_of_nil in Hf];
    (split; [vm_compute; set_solver | vm_compute; eauto]).
Defined.

(** C1 as stated fails: a valid configuration and an entity that has the
    primary-key attribute, but lacks another declared field. *)
Lemma render_resource_id_counterexample :
  __init__ ArticleSerializer = Ok tt /\
  truth stub = true /\
  isinstance stub (model ArticleSerializer) = Ok true /\
  getattr stub (primary_key ArticleSerializer) = Ok (VInt 5) /\
  _render_resource ArticleSerializer (Some stub) = Raise AttributeError.
Proof. repeat split. Qed.

(** C3, as the code has it.  For every truthy entity, [_render_resource]
    fails with [TypeError] exactly when the configured model is not among
    the classes of the entity (its own class and the classes that one
    inherits from): instances of subclasses of the model are accepted. *)
Theorem type_mismatch_raises
  (self : JSONAPISerializer) (r : instance) (c : string) :
  model self = Some c ->
  truth r = true ->
  (_render_resource self (Some r) = Raise TypeError <-> c ∉ mro r).
Proof.
  intros Hm Ht. split.
  - intros E Hc.
    destruct (getattr r (primary_key self)) as [v|e] eqn:Hpk.
    + rewrite (render_resource_unfold self r c v) in E by done.
      destruct (_render_attributes self r) as [attributes|e] eqn:Ea.
      * destruct (render_relationships_get self r v Hpk) as (rels & Er & _).
        rewrite Er in E. discriminate.
      * apply render_attributes_raises in Ea. subst e. discriminate.
    + unfold _render_resource, isinstance in E. rewrite Ht, Hm in E.
      simpl in E. rewrite bool_decide_eq_true_2 in E by done. simpl in E.
      rewrite Hpk in E. simpl in E. unfold getattr in Hpk.
      destruct (Dict.get (primary_key self) (attrs r)); congruence.
  - intros Hc. unfold _render_resource, isinstance. rewrite Ht, Hm. simpl.
    by rewrite bool_decide_eq_false_2.
Qed.

Lemma type_mismatch_raises_witness :
  _render_resource ArticleSerializer (Some basket) = Raise TypeError.
Proof.
  apply (type_mismatch_raises ArticleSerializer basket "Article");
    [reflexivity | reflexivity |].
  intros H. repeat (apply elem_of_cons in H as [H|H]; [discriminate|]).
  by apply elem_of_nil in H.
Defined.

(** C3 as stated fails: an instance of a strict subclass of the model is
    rendered, not rejected. *)
Lemma subclass_counterexample :
  class_of featured = Some "FeaturedArticle" /\
  model ArticleSerializer = Some "Article" /\
  class_of featured <> model ArticleSerializer /\
  _render_resource ArticleSerializer (Some featured) =
  Ok (resource_object "8" "articles"
        [("full-name", VStr "Eve"); ("created-at", VNone)] []).
Proof. repeat split. discriminate. Qed.

(** C10.  A falsy argument, [None] or an object whose truth value is
    false, makes [_render_resource] return [None] whatever its class, so
    before any type check; in a collection it contributes a [None] entry
    at its position. *)
Theorem falsy_renders_none (self : JSONAPISerializer) (rsrc : resource) :
  falsy rsrc = true ->
  _render_resource self rsrc = Ok PNone /\
  forall before after rendered_before rendered_after,
    Forall2 (fun x y => _render_resource self x = Ok y)
            before rendered_before ->
    Forall2 (fun x y => _render_resource self x = Ok y)
            after rendered_after ->
    serialize self (Many (before ++ rsrc :: after)) =
    Ok (document (PList (rendered_before ++ PNone :: rendered_after))).
Proof.
  intros Hf.
  assert (_render_resource self rsrc = Ok PNone) as Hnone.
  { destruct rsrc as [r|]; [|done]. simpl in Hf. simpl. by rewrite Hf. }
  split; [done|]. intros before after rb ra Hb Ha. unfold serialize.
  rewrite (serialize_loop_app self _ (rb ++ PNone :: ra)); [done|].
  apply Forall2_app; [done|]. by constructor.
Qed.

Lemma falsy_renders_none_witness :
  isinstance empty_basket (model ArticleSerializer) = Ok false /\
  _render_resource ArticleSerializer (Some empty_basket) = Ok PNone /\
  exists rendered,
    serialize ArticleSerializer
      (Many [Some (article 3 "c"); Some empty_basket; None]) =
    Ok (document (PList [rendered; PNone; PNone])).
Proof.
  split; [reflexivity|].
  destruct (falsy_renders_none ArticleSerializer (Some empty_basket)
              eq_refl) as [Hnone Hcoll].
  split; [exact Hnone|]. eexists.
  apply (Hcoll [Some (article 3 "c")] [None] [_] [PNone]).
  - constructor; [reflexivity | constructor].
  - constructor; [reflexivity | constructor].
Defined.

(** C4, as the code has it.  A field other than the primary key that is
    the key of a declared relationship, or the name of one of its local
    columns, makes [_render_attributes] raise [AttributeError]; so every
    key of a returned attributes dictionary is the exposed name of a field
    that is neither, and with verbatim names no key is in the exclusion
    set. *)
Theorem excluded_field_raises (self : JSONAPISerializer) (r : instance) :
  (forall f key cols,
     f ∈ fields self -> f <> primary_key self ->
     (key, cols) ∈ relationships r -> f = key \/ f ∈ cols ->
     _render_attributes self r = Raise AttributeError) /\
  (forall out k,
     _render_attributes self r = Ok out -> k ∈ Dict.keys out ->
     exists f, f ∈ fields self /\ f <> primary_key self /\
               k = exposed_name self f /\
               forall key cols, (key, cols) ∈ relationships r ->
                                f <> key /\ (f ∉ cols)) /\
  (forall out k key cols,
     dasherize self = false ->
     _render_attributes self r = Ok out -> k ∈ Dict.keys out ->
     (key, cols) ∈ relationships r -> k <> key /\ (k ∉ cols)).
Proof.
  assert (forall out k,
     _render_attributes self r = Ok out -> k ∈ Dict.keys out ->
     exists f, f ∈ fields self /\ f <> primary_key self /\
               k = exposed_name self f /\
               forall key cols, (key, cols) ∈ relationships r ->
                                f <> key /\ (f ∉ cols)) as Hkeys.
  { intros out k E Hk. apply get_in_keys in Hk as [w Hw].
    destruct (attributes_loop_provenance self r _ _ _ _ _ k w
                (fun f Hf => mapped_get self _ f Hf) E Hw)
      as [H|(f & v & Hf & Hpk & Hign & -> & _)]; [discriminate|].
    exists f. split_and!; try done. intros key cols Hin.
    split; intros H; apply Hign, attrs_to_ignore_elem;
      exists key, cols; auto. }
  split_and!.
  - intros f key cols Hf Hpk Hin Hor.
    apply (attributes_loop_excluded self r _ _ _ _ f); try done.
    + intros g Hg. by apply mapped_get.
    + apply attrs_to_ignore_elem. by exists key, cols.
  - exact Hkeys.
  - intros out k key cols Hd E Hk Hin.
    destruct (Hkeys out k E Hk) as (f & _ & _ & -> & H).
    unfold exposed_name. rewrite Hd. by apply H.
Qed.

Lemma excluded_field_raises_witness :
  _render_attributes LeakySerializer (article 5 "Ann") = Raise AttributeError.
Proof.
  apply (proj1 (excluded_field_raises LeakySerializer (article 5 "Ann"))
           "author_id" "author" ["author_id"]).
  - right. right. left.
  - discriminate.
  - left.
  - right. left.
Defined.

(** C4 as stated fails: with dasherized names the field [authorId], which
    is not in the exclusion set, is stored under [author-id], the key that
    corresponds to the excluded column name [author_id]. *)
Lemma dasherized_key_counterexample :
  ("author_id" ∈ attrs_to_ignore aliased) /\
  ("authorId" ∉ attrs_to_ignore aliased) /\
  exposed_name AliasSerializer "author_id" = "author-id" /\
  _render_attributes AliasSerializer aliased = Ok [("author-id", VInt 7)] /\
  "author-id" ∈ Dict.keys [("author-id", VInt 7)].
Proof.
  split_and!.
  - apply attrs_to_ignore_elem. exists "author", ["author_id"].
    split; [left | right; left].
  - intros H. apply attrs_to_ignore_elem in H as (key & cols & Hin & Hor).
    apply list_elem_of_singleton in Hin. injection Hin as -> ->.
    destruct Hor as [H|H]; [discriminate|].
    apply list_elem_of_singleton in H. discriminate.
  - reflexivity.
  - reflexivity.
  - left.
Qed.

(** C5.  Serializing a collection whose members render to [rendered], one
    by one, yields that list as ['data'], in the order of the members; an
    empty collection yields the empty list; [None] yields [None]. *)
Theorem serialize_preserves_order
  (self : JSONAPISerializer) (items : list resource)
  (rendered : list pyobj) :
  Forall2 (fun x y => _render_resource self x = Ok y) items rendered ->
  serialize self (Many items) = Ok (document (PList rendered)) /\
  serialize self (Many []) = Ok (document (PList [])) /\
  serialize self (One None) = Ok (document PNone).
Proof.
  intros H. split_and!; [|done|done].
  unfold serialize. by rewrite (serialize_loop_app self items rendered).
Qed.

Lemma serialize_preserves_order_witness :
  serialize ArticleSerializer
    (Many [Some (article 3 "c"); Some (article 1 "a");
           Some (article 2 "b")]) =
  Ok (document (PList [rendered_article "3" "c"; rendered_article "1" "a";
                       rendered_article "2" "b"])).
Proof.
  apply (serialize_preserves_order ArticleSerializer).
  repeat (constructor; [reflexivity|]). constructor.
Defined.

(** C6.  For an entity whose primary-key value is [v], every declared
    relationship, whether or not it is listed in [fields], has exactly one
    entry in the relationships dictionary, under its exposed name, and its
    links are [/<type>/<id>/relationships/<name>] and [/<type>/<id>/<name>]
    with the entity's [__tablename__] and [v] as formatted by [format];
    there are no other entries. *)
Theorem relationship_links
  (self : JSONAPISerializer) (r : instance) (v : value) :
  getattr r (primary_key self) = Ok v ->
  exists rels,
    _render_relationships self r = Ok rels /\
    (forall key, key ∈ Dict.keys (relationships r) ->
       Dict.get (exposed_name self key) rels =
       Some (PDict
               [("links",
                 PDict
                   [("self",
                     PStr ("/" ++ __tablename__ r ++ "/" ++ str v
                           ++ "/relationships/" ++ exposed_name self key));
                    ("related",
                     PStr ("/" ++ __tablename__ r ++ "/" ++ str v
                           ++ "/" ++ exposed_name self key))])]) /\
       Dict.count (exposed_name self key) rels = 1) /\
    (forall k, k ∈ Dict.keys rels ->
       exists key, key ∈ Dict.keys (relationships r) /\
                   k = exposed_name self key).
Proof.
  intros Hpk.
  destruct (render_relationships_get self r v Hpk) as (rels & E & Hnd & Hget).
  exists rels. split_and!; [done | |].
  - intros key Hkey.
    assert (Dict.get (exposed_name self key) rels =
            Some (links (__tablename__ r) (str v) (exposed_name self key)))
      as Hk.
    { rewrite Hget. rewrite bool_decide_eq_true_2; [done|].
      apply list_elem_of_fmap. by exists key. }
    split; [exact Hk|]. apply count_NoDup; [done|].
    apply get_in_keys. by rewrite Hk.
  - intros k Hk. apply get_in_keys in Hk as [w Hw]. rewrite Hget in Hw.
    case_bool_decide as Hin; [|discriminate].
    apply list_elem_of_fmap in Hin as (key & -> & Hkey). by exists key.
Qed.

Lemma relationship_links_witness :
  exists rels,
    _render_relationships ArticleSerializer (article 5 "Ann") = Ok rels /\
    Dict.get "author" rels =
    Some (PDict
            [("links",
              PDict [("self", PStr "/articles/5/relationships/author");
                     ("related", PStr "/articles/5/author")])]) /\
    Dict.count "author" rels = 1.
Proof.
  destruct (relationship_links ArticleSerializer (article 5 "Ann") (VInt 5)
              eq_refl) as (rels & E & H & _).
  exists rels. split; [exact E|]. apply (H "author"). left.
Defined.



(** C8, as the code has it.  When every field other than the primary key
    can be rendered, each of them has an entry under its exposed name, and
    every entry holds the value of a field exposed under that name: as its
    [isoformat()] text, offset included, when that value is a
    [datetime.datetime], and as it is otherwise, whether it is a number, a
    string, a boolean, [None], a [datetime.date] or a [datetime.time]. *)
Theorem attribute_values_coerced (self : JSONAPISerializer) (r : instance) :
  (forall f, f ∈ fields self -> f <> primary_key self ->
             renderable r (attrs_to_ignore r) f) ->
  exists out,
    _render_attributes self r = Ok out /\
    (forall f, f ∈ fields self -> f <> primary_key self ->
       exists g v,
         g ∈ fields self /\ g <> primary_key self /\
         exposed_name self g = exposed_name self f /\
         Dict.get g (attrs r) = Some v /\
         Dict.get (exposed_name self f) out =
         Some (match v with
               | VDateTime dt => VStr (isoformat dt)
               | _ => v
               end)) /\
    (forall k w, Dict.get k out = Some w ->
       exists f v,
         f ∈ fields self /\ f <> primary_key self /\
         k = exposed_name self f /\
         Dict.get f (attrs r) = Some v /\
         w = match v with
             | VDateTime dt => VStr (isoformat dt)
             | _ => v
             end).
Proof.
  intros Hall. apply render_attributes_ok_iff in Hall as [out E].
  exists out. split_and!; [done | |].
  - intros f Hf Hpk.
    apply (attributes_loop_coverage self r _ _ _ _ _ f
             (fun f Hf => mapped_get self _ f Hf) E Hf Hpk).
  - intros k w Hw.
    destruct (attributes_loop_provenance self r _ _ _ _ _ k w
                (fun f Hf => mapped_get self _ f Hf) E Hw)
      as [H|(f & v & Hf & Hpk & _ & -> & Hv & ->)]; [discriminate|].
    by exists f, v.
Qed.

Lemma attribute_values_coerced_witness :
  exists out,
    _render_attributes ArticleSerializer (article 5 "Ann") = Ok out /\
    Dict.get "created-at" out = Some (VStr "2017-03-09T08:05:00+05:30") /\
    Dict.get "full-name" out = Some (VStr "Ann").
Proof.
  destruct (attribute_values_coerced ArticleSerializer (article 5 "Ann"))
    as (out & E & _ & _).
  - intros f Hf Hpk. unfold renderable.
    repeat (apply elem_of_cons in Hf as [->|Hf]);
      [done | | | by apply elem_of_nil in Hf];
      (split; [vm_compute; set_solver | vm_compute; eauto]).
  - exists out. split; [exact E|].
    assert (Ok out = Ok [("full-name", VStr "Ann");
                         ("created-at", VStr "2017-03-09T08:05:00+05:30")])
      as [= ->] by (rewrite <- E; reflexivity).
    split; reflexivity.
Defined.

(** C8 as stated fails: a [datetime.date] is a temporal value and is
    stored as it is, not as its ISO-8601 text. *)
Lemma date_counterexample :
  Dict.get "born" (attrs person) = Some (VDate (mkDate 1990 5 17)) /\
  is_temporal (VDate (mkDate 1990 5 17)) = true /\
  iso8601 (VDate (mkDate 1990 5 17)) = Some "1990-05-17" /\
  _render_attributes PersonSerializer person =
  Ok [("born", VDate (mkDate 1990 5 17))] /\
  _render_attributes PersonSerializer person <>
  Ok [("born", VStr "1990-05-17")].
Proof. repeat split. discriminate. Qed.

(** ** What the renderer reads *)

Lemma attributes_loop_ext self r r' ignore mapped_fields todo acc :
  (forall f, f ∈ todo -> Dict.get f (attrs r) = Dict.get f (attrs r')) ->
  attributes_loop self r ignore mapped_fields todo acc =
  attributes_loop self r' ignore mapped_fields todo acc.
Proof.
  revert acc. induction todo as [|f todo IH]; intros acc Hsame; simpl;
    [done|].
  assert (forall g, g ∈ todo ->
            Dict.get g (attrs r) = Dict.get g (attrs r')) as Hrest
    by (intros g Hg; apply Hsame; by right).
  destruct (String.eqb f (primary_key self)); [by apply IH|].
  case_bool_decide; [done|].
  unfold getattr. rewrite (Hsame f); [|left].
  destruct (Dict.get f (attrs r')); simpl; [|done].
  destruct (subscript mapped_fields f); simpl; [|done]. by apply IH.
Qed.

Lemma relationships_loop_ext r r' v mapped_relationships todo acc :
  __tablename__ r = __tablename__ r' ->
  relationships_loop r v mapped_relationships todo acc =
  relationships_loop r' v mapped_relationships todo acc.
Proof.
  intros Ht. revert acc. induction todo as [|m todo IH]; intros acc; simpl;
    [done|].
  destruct (subscript mapped_relationships m); simpl; [|done].
  by rewrite Ht, IH.
Qed.

(** C9.  Two calls of [_render_resource] on an entity that was not mutated
    in between return the same result, value or exception: the result is
    determined by the configuration and by what the renderer reads of the
    entity. *)
Theorem render_resource_idempotent
  (self : JSONAPISerializer) (before after : resource) :
  unmutated self before after ->
  _render_resource self before = _render_resource self after.
Proof.
  destruct before as [r|], after as [r'|]; simpl; try done.
  intros (Ht & Hmro & Htab & Hrel & Hattrs).
  rewrite <- Ht. destruct (truth r); simpl; [|done].
  unfold isinstance. rewrite <- Hmro.
  destruct (model self) as [c|]; simpl; [|done].
  case_bool_decide; simpl; [|done].
  assert (getattr r (primary_key self) = getattr r' (primary_key self))
    as Hpk by (unfold getattr; rewrite (Hattrs (primary_key self)); auto).
  assert (_render_attributes self r = _render_attributes self r') as Ha.
  { unfold _render_attributes, attrs_to_ignore. rewrite <- Hrel.
    apply attributes_loop_ext. intros f Hf. apply Hattrs. by right. }
  assert (_render_relationships self r = _render_relationships self r')
    as Hr.
  { unfold _render_relationships. rewrite <- Hrel, <- Hpk.
    destruct (getattr r (primary_key self)); simpl; [|done].
    by apply relationships_loop_ext. }
  rewrite <- Hpk, <- Ha, <- Hr.
  by rewrite <- Htab.
Qed.

Lemma render_resource_idempotent_witness :
  _render_resource ArticleSerializer (Some (article 5 "Ann")) =
  _render_resource ArticleSerializer
    (Some {| mro := ["Article"; "Base"; "object"]; truth := true;
             __tablename__ := "articles";
             attrs := [("id", VInt 5); ("fullName", VStr "Ann");
                       ("created_at", VDateTime created);
                       ("author_id", VInt 9); ("views", VInt 10)];
             relationships := [("author", ["author_id"])] |}).
Proof.
  apply (render_resource_idempotent ArticleSerializer).
  simpl. split_and!; try reflexivity.
  intros f [->|Hf]; [reflexivity|].
  repeat (apply elem_of_cons in Hf as [->|Hf]; [reflexivity|]).
  by apply elem_of_nil in Hf.
Defined.

(** * Further properties of the methods *)

(** ** [serialize] *)

Lemma serialize_loop_inv self items data out :
  serialize_loop self items data = Ok out ->
  exists rendered,
    out = (data ++ rendered)%list /\
    Forall2 (fun x y => _render_resource self x = Ok y) items rendered.
Proof.
  revert data. induction items as [|x items IH]; intros data; simpl.
  - intros [= <-]. exists []. by rewrite app_nil_r.
  - destruct (_render_resource self x) as [y|e] eqn:Hx; simpl;
      [|discriminate].
    intros E. destruct (IH _ E) as (rendered & -> & HF).
    exists (y :: rendered). rewrite <- app_assoc. split; [done|].
    by constructor.
Qed.

Lemma serialize_loop_raise self before x after e data rendered :
  Forall2 (fun x y => _render_resource self x = Ok y) before rendered ->
  _render_resource self x = Raise e ->
  serialize_loop self (before ++ x :: after) data = Raise e.
Proof.
  intros HF Hx. revert data.
  induction HF as [|b y before rendered Hb _ IH]; intros data; simpl.
  - by rewrite Hx.
  - rewrite Hb. simpl. apply IH.
Qed.

Lemma serialize_many_inv self items doc :
  serialize self (Many items) = Ok doc <->
  exists rendered,
    doc = document (PList rendered) /\
    length rendered = length items /\
    Forall2 (fun x y => _render_resource self x = Ok y) items rendered.
Proof.
  unfold serialize. split.
  - destruct (serialize_loop self items []) as [out|e] eqn:E; simpl;
      [|discriminate].
    intros [= <-]. apply serialize_loop_inv in E as (rendered & -> & HF).
    exists rendered. split_and!; [done | | done].
    symmetry. by eapply Forall2_length.
  - intros (rendered & -> & _ & HF).
    by rewrite (serialize_loop_app self items rendered).
Qed.

(** Serializing a collection succeeds exactly when every member renders,
    and then ['data'] has one entry per member. *)
Theorem serialize_collection_iff
  (self : JSONAPISerializer) (items : list resource) (doc : pyobj) :
  serialize self (Many items) = Ok doc <->
  exists rendered,
    doc = document (PList rendered) /\
    length rendered = length items /\
    Forall2 (fun x y => _render_resource self x = Ok y) items rendered.
Proof.
  unfold serialize. split.
  - destruct (serialize_loop self items []) as [out|e] eqn:E; simpl;
      [|discriminate].
    intros [= <-]. apply serialize_loop_inv in E as (rendered & -> & HF).
    exists rendered. split_and!; [done | | done].
    symmetry. by eapply Forall2_length.
  - intros (rendered & -> & _ & HF).
    by rewrite (serialize_loop_app self items rendered).
Qed.

Lemma serialize_collection_iff_witness :
  exists rendered,
    document (PList [rendered_article "3" "c"; PNone]) =
    document (PList rendered) /\
    length rendered = 2.
Proof.
  destruct (proj1 (serialize_collection_iff ArticleSerializer
                     [Some (article 3 "c"); None]
                     (document (PList [rendered_article "3" "c"; PNone])))
              eq_refl) as (rendered & Hdoc & Hlen & _).
  exists rendered. split; [exact Hdoc | exact Hlen].
Defined.

(** A collection is rendered up to its first member that fails: the
    exception of that member is the exception of [serialize], and no
    document is returned. *)
Theorem serialize_first_failure
  (self : JSONAPISerializer) (before after : list resource)
  (x : resource) (e : exn) (rendered : list pyobj) :
  Forall2 (fun x y => _render_resource self x = Ok y) before rendered ->
  _render_resource self x = Raise e ->
  serialize self (Many (before ++ x :: after)) = Raise e.
Proof.
  intros HF Hx. unfold serialize.
  by rewrite (serialize_loop_raise self before x after e [] rendered).
Qed.

Lemma serialize_first_failure_witness :
  serialize ArticleSerializer
    (Many [Some (article 3 "c"); Some basket; Some stub]) = Raise TypeError.
Proof.
  apply (serialize_first_failure ArticleSerializer [Some (article 3 "c")]
           [Some stub] (Some basket) TypeError [rendered_article "3" "c"]).
  - constructor; [reflexivity | constructor].
  - reflexivity.
Defined.

(** Serializing the concatenation of two collections gives the
    concatenation of their ['data'] lists. *)
Theorem serialize_app
  (self : JSONAPISerializer) (xs ys : list resource) (dx dy : list pyobj) :
  serialize self (Many xs) = Ok (document (PList dx)) ->
  serialize self (Many ys) = Ok (document (PList dy)) ->
  serialize self (Many (xs ++ ys)) = Ok (document (PList (dx ++ dy))).
Proof.
  intros Hx Hy.
  apply serialize_many_inv in Hx as (rx & Ex & _ & Fx).
  apply serialize_many_inv in Hy as (ry & Ey & _ & Fy).
  injection Ex as ->. injection Ey as ->.
  apply serialize_many_inv. exists (rx ++ ry)%list.
  split_and!; [done | | by apply Forall2_app].
  rewrite !length_app. f_equal; symmetry; by eapply Forall2_length.
Qed.

Lemma serialize_app_witness :
  serialize ArticleSerializer
    (Many ([Some (article 3 "c")] ++ [None; Some (article 1 "a")])) =
  Ok (document (PList ([rendered_article "3" "c"] ++
                       [PNone; rendered_article "1" "a"]))).
Proof.
  apply (serialize_app ArticleSerializer); reflexivity.
Defined.

(** ** Exceptions of the renderer *)

Lemma render_relationships_raises self r e :
  _render_relationships self r = Raise e ->
  e = AttributeError /\ Dict.get (primary_key self) (attrs r) = None.
Proof.
  intros E. destruct (getattr r (primary_key self)) as [v|e'] eqn:Hpk.
  - destruct (render_relationships_get self r v Hpk) as (rels & E' & _).
    congruence.
  - unfold _render_relationships in E. rewrite Hpk in E. simpl in E.
    unfold getattr in Hpk.
    destruct (Dict.get (primary_key self) (attrs r)); [discriminate|].
    split; congruence.
Qed.

Lemma render_resource_raises self rsrc e :
  _render_resource self rsrc = Raise e ->
  e = TypeError \/ e = AttributeError.
Proof.
  destruct rsrc as [r|]; simpl; [|discriminate].
  destruct (truth r); simpl; [|discriminate].
  unfold isinstance. destruct (model self) as [c|]; simpl;
    [|intros [= <-]; by left].
  case_bool_decide; simpl; [|intros [= <-]; by left].
  unfold getattr at 1.
  destruct (Dict.get (primary_key self) (attrs r)); simpl;
    [|intros [= <-]; by right].
  destruct (_render_attributes self r) as [out|e'] eqn:Ea; simpl.
  - destruct (_render_relationships self r) as [rels|e'] eqn:Er; simpl;
      [discriminate|].
    intros [= <-]. right.
    exact (proj1 (render_relationships_raises _ _ _ Er)).
  - intros [= <-]. right. by apply render_attributes_raises in Ea.
Qed.

Lemma render_resource_instance_raises self r c e :
  model self = Some c -> truth r = true -> c ∈ mro r ->
  _render_resource self (Some r) = Raise e -> e = AttributeError.
Proof.
  intros Hm Ht Hc. unfold _render_resource, isinstance.
  rewrite Ht, Hm. simpl. rewrite bool_decide_eq_true_2 by done. simpl.
  unfold getattr at 1.
  destruct (Dict.get (primary_key self) (attrs r)); simpl; [|congruence].
  destruct (_render_attributes self r) as [out|e'] eqn:Ea; simpl.
  - destruct (_render_relationships self r) as [rels|e'] eqn:Er; simpl;
      [discriminate|].
    intros [= <-]. exact (proj1 (render_relationships_raises _ _ _ Er)).
  - intros [= <-]. by apply render_attributes_raises in Ea.
Qed.

(** [serialize] raises nothing but [TypeError] and [AttributeError]: in
    particular the two name dictionaries are never missing a key. *)
Theorem serialize_raises_only
  (self : JSONAPISerializer) (rs : resources) (e : exn) :
  serialize self rs = Raise e -> e = TypeError \/ e = AttributeError.
Proof.
  destruct rs as [[o|]|items]; unfold serialize.
  - destruct (hasattr o "count"); [intros [= <-]; by left|].
    destruct (_render_resource self (Some o)) as [d|e'] eqn:E; simpl;
      [discriminate|].
    intros [= <-]. by eapply render_resource_raises.
  - simpl. discriminate.
  - destruct (serialize_loop self items []) as [out|e'] eqn:E; simpl;
      [discriminate|].
    intros [= <-]. revert E. generalize (@nil pyobj).
    induction items as [|x items IH]; intros data; simpl; [discriminate|].
    destruct (_render_resource self x) as [y|e''] eqn:Hx; simpl.
    + apply IH.
    + intros [= <-]. by eapply render_resource_raises.
Qed.

Lemma serialize_raises_only_witness :
  AttributeError = TypeError \/ AttributeError = AttributeError.
Proof.
  apply (serialize_raises_only ArticleSerializer (One (Some stub))).
  reflexivity.
Defined.

(** For a truthy instance of the model, [_render_resource] returns a
    resource object exactly when the primary key is present and every other
    field can be rendered; the object then holds the results of
    [_render_attributes] and [_render_relationships]; in every other case
    the call raises [AttributeError]. *)
Theorem render_resource_outcome
  (self : JSONAPISerializer) (r : instance) (c : string) :
  model self = Some c -> truth r = true -> c ∈ mro r ->
  ((is_Some (Dict.get (primary_key self) (attrs r)) /\
    forall f, f ∈ fields self -> f <> primary_key self ->
              renderable r (attrs_to_ignore r) f) ->
   exists v out rels,
     Dict.get (primary_key self) (attrs r) = Some v /\
     _render_attributes self r = Ok out /\
     _render_relationships self r = Ok rels /\
     _render_resource self (Some r) =
     Ok (resource_object (str v) (__tablename__ r) out rels)) /\
  (~ (is_Some (Dict.get (primary_key self) (attrs r)) /\
      forall f, f ∈ fields self -> f <> primary_key self ->
                renderable r (attrs_to_ignore r) f) ->
   _render_resource self (Some r) = Raise AttributeError).
Proof.
  intros Hm Ht Hc. split.
  - intros [[v Hv] Hall]. exists v.
    assert (getattr r (primary_key self) = Ok v) as Hpk
      by (unfold getattr; by rewrite Hv).
    apply render_attributes_ok_iff in Hall as [out Ea].
    destruct (render_relationships_get self r v Hpk) as (rels & Er & _).
    exists out, rels. split_and!; try done.
    rewrite (render_resource_unfold self r c v) by done.
    by rewrite Ea, Er.
  - intros Hnot.
    destruct (_render_resource self (Some r)) as [d|e] eqn:E.
    + exfalso. apply Hnot.
      destruct (Dict.get (primary_key self) (attrs r)) as [v|] eqn:Hv.
      * split; [eauto|]. apply render_attributes_ok_iff.
        assert (getattr r (primary_key self) = Ok v) as Hpk
          by (unfold getattr; by rewrite Hv).
        rewrite (render_resource_unfold self r c v) in E by done.
        destruct (_render_attributes self r); [eauto | discriminate].
      * unfold _render_resource, isinstance, getattr in E.
        rewrite Ht, Hm, Hv in E. simpl in E.
        rewrite bool_decide_eq_true_2 in E by done. discriminate.
    + f_equal. by eapply render_resource_instance_raises.
Qed.

Lemma render_resource_outcome_witness :
  _render_resource ArticleSerializer (Some stub) = Raise AttributeError.
Proof.
  apply (proj2 (render_resource_outcome ArticleSerializer stub "Article"
                  eq_refl eq_refl ltac:(left))).
  intros [_ Hall].
  destruct (Hall "created_at") as [_ [v Hv]];
    [right; right; left | discriminate | discriminate].
Defined.

(** ** Order and collisions in [_render_attributes] *)

Lemma set_fresh {V : Type} (k : string) (v : V) (d : odict V) :
  k ∉ Dict.keys d -> Dict.set k v d = (d ++ [(k, v)])%list.
Proof.
  induction d as [|[k' v'] d IH]; intros Hk; simpl; [done|].
  simpl in Hk. destruct (String.eqb_spec k k') as [->|Hne].
  - exfalso. apply Hk. left.
  - f_equal. apply IH. intros H. apply Hk. by right.
Qed.

Lemma attributes_loop_app self r ignore mapped_fields l1 l2 acc :
  attributes_loop self r ignore mapped_fields (l1 ++ l2) acc =
  let! mid := attributes_loop self r ignore mapped_fields l1 acc in
  attributes_loop self r ignore mapped_fields l2 mid.
Proof.
  revert acc. induction l1 as [|f l1 IH]; intros acc; simpl; [done|].
  destruct (String.eqb f (primary_key self)); [apply IH|].
  case_bool_decide; [done|].
  destruct (getattr r f); simpl; [|done].
  destruct (subscript mapped_fields f); simpl; [|done]. apply IH.
Qed.

Lemma attributes_loop_in_order self r ignore mapped_fields todo acc out :
  (forall f, f ∈ todo ->
             Dict.get f mapped_fields = Some (exposed_name self f)) ->
  attributes_loop self r ignore mapped_fields todo acc = Ok out ->
  NoDup (Dict.keys acc ++
         map (exposed_name self)
             (List.filter (fun f => negb (String.eqb f (primary_key self)))
                          todo)) ->
  exists tail,
    out = (acc ++ tail)%list /\
    Forall2 (fun f kv =>
               fst kv = exposed_name self f /\
               exists v, Dict.get f (attrs r) = Some v /\
                         snd kv = coerce v)
            (List.filter (fun f => negb (String.eqb f (primary_key self)))
                         todo) tail.
Proof.
  revert acc. induction todo as [|f todo IH]; intros acc Hmap; simpl.
  - intros [= <-] _. exists []. by rewrite app_nil_r.
  - assert (forall g, g ∈ todo ->
              Dict.get g mapped_fields = Some (exposed_name self g)) as Hmap'
      by (intros g Hg; apply Hmap; by right).
    destruct (String.eqb f (primary_key self)); simpl; [by apply IH|].
    case_bool_decide; [discriminate|].
    unfold getattr, subscript. rewrite (Hmap f); [|left].
    destruct (Dict.get f (attrs r)) as [v|] eqn:Hv; simpl; [|discriminate].
    intros E Hnd.
    assert (exposed_name self f ∉ Dict.keys acc) as Hfresh.
    { apply NoDup_app in Hnd as (_ & Hdisj & _). intros Hin.
      apply (Hdisj _ Hin). left. }
    rewrite (set_fresh _ _ _ Hfresh) in E.
    destruct (IH _ Hmap' E) as (tail & -> & HF).
    { unfold Dict.keys in *. rewrite map_app. simpl.
      by rewrite <- app_assoc. }
    exists ((exposed_name self f, coerce v) :: tail).
    rewrite <- app_assoc. split; [done|].
    constructor; [|done]. simpl. eauto.
Qed.

(** [_render_attributes] succeeds exactly when every field other than the
    primary key is present on the entity and is neither a relationship key
    nor a local column of a relationship; the primary key itself is exempt
    from both conditions. *)
Theorem render_attributes_succeeds_iff
  (self : JSONAPISerializer) (r : instance) :
  (exists out, _render_attributes self r = Ok out) <->
  (forall f, f ∈ fields self -> f <> primary_key self ->
     is_Some (Dict.get f (attrs r)) /\
     forall key cols, (key, cols) ∈ relationships r ->
                      f <> key /\ (f ∉ cols)).
Proof.
  rewrite render_attributes_ok_iff. unfold renderable.
  split; intros H f Hf Hpk; destruct (H f Hf Hpk) as [H1 H2].
  - split; [done|]. intros key cols Hin.
    split; intros Hx; apply H1, attrs_to_ignore_elem; exists key, cols; auto.
  - split; [|done]. intros Hx.
    apply attrs_to_ignore_elem in Hx as (key & cols & Hin & Hor).
    destruct (H2 key cols Hin) as [Hk Hc]. by destruct Hor.
Qed.

Lemma render_attributes_succeeds_iff_witness :
  ~ exists out, _render_attributes LeakySerializer (article 5 "Ann") = Ok out.
Proof.
  intros Hok.
  destruct (proj1 (render_attributes_succeeds_iff LeakySerializer
                     (article 5 "Ann")) Hok "author_id")
    as [_ Hex]; [right; right; left | discriminate |].
  destruct (Hex "author" ["author_id"]) as [_ Hcol]; [left|].
  apply Hcol. left.
Defined.

(** When the fields other than the primary key are exposed under pairwise
    distinct names, a successful [_render_attributes] returns one entry per
    such field, in the order of [fields], each holding the coerced value of
    its field. *)
Theorem render_attributes_in_order
  (self : JSONAPISerializer) (r : instance) (out : odict value) :
  NoDup (map (exposed_name self) (exposed_fields self)) ->
  _render_attributes self r = Ok out ->
  Forall2 (fun f kv =>
             fst kv = exposed_name self f /\
             exists v, Dict.get f (attrs r) = Some v /\ snd kv = coerce v)
          (exposed_fields self) out.
Proof.
  intros Hnd E.
  destruct (attributes_loop_in_order self r _ _ _ _ _
              (fun f Hf => mapped_get self _ f Hf) E) as (tail & -> & HF);
    done.
Qed.

Lemma render_attributes_in_order_witness :
  Forall2 (fun f kv =>
             fst kv = exposed_name ArticleSerializer f /\
             exists v, Dict.get f (attrs (article 5 "Ann")) = Some v /\
                       snd kv = coerce v)
          ["fullName"; "created_at"]
          [("full-name", VStr "Ann");
           ("created-at", VStr "2017-03-09T08:05:00+05:30")].
Proof.
  apply (render_attributes_in_order ArticleSerializer (article 5 "Ann"));
    [|reflexivity].
  simpl. apply NoDup_cons. split.
  - intros H. apply elem_of_cons in H as [H|H]; [discriminate|].
    by apply elem_of_nil in H.
  - apply NoDup_singleton.
Defined.

(** When several fields are exposed under one name, the entry holds the
    value of the last of them in [fields]. *)
Theorem render_attributes_last_wins
  (self : JSONAPISerializer) (r : instance) (out : odict value)
  (earlier later : list string) (g : string) (v : value) :
  fields self = (earlier ++ g :: later)%list ->
  g <> primary_key self ->
  (forall f, f ∈ later -> f <> primary_key self ->
             exposed_name self f <> exposed_name self g) ->
  Dict.get g (attrs r) = Some v ->
  _render_attributes self r = Ok out ->
  Dict.get (exposed_name self g) out = Some (coerce v).
Proof.
  intros Hfields Hpk Hlater Hv. unfold _render_attributes.
  assert (forall f, f ∈ fields self ->
            Dict.get f (mapped self (fields self)) =
            Some (exposed_name self f)) as Hmap
    by (intros f Hf; by apply mapped_get).
  revert Hmap. generalize (mapped self (fields self)) as mf.
  rewrite Hfields. intros mf Hmap. rewrite attributes_loop_app.
  destruct (attributes_loop self r (attrs_to_ignore r) mf earlier [])
    as [mid|e]; simpl; [|discriminate].
  apply String.eqb_neq in Hpk as Hpk'. rewrite Hpk'.
  case_bool_decide; [discriminate|].
  unfold getattr, subscript. rewrite Hv, (Hmap g); simpl.
  2:{ apply elem_of_app. right. left. }
  intros E.
  assert (forall f, f ∈ later ->
            Dict.get f mf = Some (exposed_name self f)) as Hmap'.
  { intros f Hf. apply Hmap. apply elem_of_app. right. by right. }
  destruct (attributes_loop_keeps self r _ _ _ _ _ (exposed_name self g) E)
    as [w Hw]; [rewrite get_set_eq; eauto|].
  destruct (attributes_loop_provenance self r _ _ _ _ _ _ w Hmap' E Hw)
    as [H0|(f & v' & Hf & Hfpk & _ & Hname & _)].
  - rewrite get_set_eq in H0. congruence.
  - exfalso. by apply (Hlater f Hf Hfpk).
Qed.

Lemma render_attributes_last_wins_witness :
  Dict.get "full-name" [("full-name", VStr "new")] = Some (VStr "new").
Proof.
  apply (render_attributes_last_wins ClashSerializer twice_named
           [("full-name", VStr "new")] ["id"; "full_name"] [] "fullName"
           (VStr "new")); try reflexivity.
  - discriminate.
  - intros f Hf. by apply elem_of_nil in Hf.
Defined.

(** The primary key has no entry of its own among the attributes: its
    exposed name is a key only if another field is exposed under the same
    name, so never when names are exposed verbatim. *)
Theorem primary_key_not_attribute
  (self : JSONAPISerializer) (r : instance) (out : odict value) :
  _render_attributes self r = Ok out ->
  (forall f, f ∈ fields self -> f <> primary_key self ->
             exposed_name self f <> exposed_name self (primary_key self)) ->
  exposed_name self (primary_key self) ∉ Dict.keys out.
Proof.
  intros E Hother Hin. apply get_in_keys in Hin as [w Hw].
  destruct (attributes_loop_provenance self r _ _ _ _ _ _ w
              (fun f Hf => mapped_get self _ f Hf) E Hw)
    as [H|(f & v & Hf & Hpk & _ & Hname & _)]; [discriminate|].
  by apply (Hother f Hf Hpk).
Qed.

Lemma primary_key_not_attribute_witness :
  "id" ∉ Dict.keys [("full-name", VStr "Ann");
                    ("created-at", VStr "2017-03-09T08:05:00+05:30")].
Proof.
  apply (primary_key_not_attribute ArticleSerializer (article 5 "Ann"));
    [reflexivity|].
  intros f Hf Hpk.
  repeat (apply elem_of_cons in Hf as [->|Hf]; [try done; discriminate|]).
  by apply elem_of_nil in Hf.
Defined.

(** ** Order and failure in [_render_relationships] *)

Lemma relationships_loop_in_order self r v mapped_relationships todo acc :
  (forall m, m ∈ todo ->
             Dict.get m mapped_relationships = Some (exposed_name self m)) ->
  NoDup (Dict.keys acc ++ map (exposed_name self) todo) ->
  relationships_loop r v mapped_relationships todo acc =
  Ok (acc ++ map (fun m => (exposed_name self m,
                            links (__tablename__ r) (str v)
                                  (exposed_name self m))) todo)%list.
Proof.
  revert acc. induction todo as [|m todo IH]; intros acc Hmap Hnd; simpl.
  - by rewrite app_nil_r.
  - unfold subscript. rewrite (Hmap m); [|left]. simpl.
    assert (exposed_name self m ∉ Dict.keys acc) as Hfresh.
    { apply NoDup_app in Hnd as (_ & Hdisj & _). intros Hin.
      apply (Hdisj _ Hin). left. }
    rewrite (set_fresh _ _ _ Hfresh), IH.
    + by rewrite <- app_assoc.
    + intros m' Hm'. apply Hmap. by right.
    + unfold Dict.keys in *. rewrite map_app. simpl.
      by rewrite <- app_assoc.
Qed.

(** [_render_relationships] fails exactly when the entity lacks the
    primary-key attribute, and then with [AttributeError]; no relationship
    can make it fail. *)
Theorem render_relationships_fails_iff
  (self : JSONAPISerializer) (r : instance) (e : exn) :
  _render_relationships self r = Raise e <->
  e = AttributeError /\ Dict.get (primary_key self) (attrs r) = None.
Proof.
  split; [apply render_relationships_raises|].
  intros [-> Hnone]. unfold _render_relationships, getattr.
  by rewrite Hnone.
Qed.

Lemma render_relationships_fails_iff_witness :
  _render_relationships PersonSerializer
    {| mro := ["Person"]; truth := true; __tablename__ := "people";
       attrs := [("name", VStr "Bo")];
       relationships := [("pets", ["id"])] |} = Raise AttributeError.
Proof.
  apply (proj2 (render_relationships_fails_iff PersonSerializer _ _)).
  split; reflexivity.
Defined.

(** When the relationship keys are exposed under pairwise distinct names,
    the relationships dictionary has one entry per declared relationship,
    in the order of [__mapper__.relationships]; with no relationship
    declared it is empty. *)
Theorem render_relationships_in_order
  (self : JSONAPISerializer) (r : instance) (v : value) :
  getattr r (primary_key self) = Ok v ->
  NoDup (map (exposed_name self) (Dict.keys (relationships r))) ->
  _render_relationships self r =
  Ok (map (fun key => (exposed_name self key,
                       links (__tablename__ r) (str v)
                             (exposed_name self key)))
          (Dict.keys (relationships r))).
Proof.
  intros Hpk Hnd. unfold _render_relationships. rewrite Hpk. simpl.
  rewrite (relationships_loop_in_order self); [done | | done].
  intros m Hm. by apply mapped_get.
Qed.

Lemma render_relationships_in_order_witness :
  _render_relationships PersonSerializer person = Ok [] /\
  _render_relationships ArticleSerializer (article 5 "Ann") =
  Ok [("author", links "articles" "5" "author")].
Proof.
  split.
  - apply (render_relationships_in_order PersonSerializer person (VInt 1));
      [reflexivity | constructor].
  - apply (render_relationships_in_order ArticleSerializer
             (article 5 "Ann") (VInt 5)); [reflexivity|].
    apply NoDup_singleton.
Defined.

(** ** Identifiers *)

Lemma render_resource_id self r d :
  _render_resource self (Some r) = Ok (PDict d) ->
  exists v, Dict.get (primary_key self) (attrs r) = Some v /\
            Dict.get "id" d = Some (PStr (str v)).
Proof.
  simpl. destruct (truth r); simpl; [|discriminate].
  destruct (isinstance r (model self)) as [[]|]; simpl; try discriminate.
  unfold getattr at 1.
  destruct (Dict.get (primary_key self) (attrs r)) as [v|]; simpl;
    [|discriminate].
  destruct (_render_attributes self r); simpl; [|discriminate].
  destruct (_render_relationships self r); simpl; [|discriminate].
  intros [= <-]. by exists v.
Qed.

Lemma str_int_inj a b : str (VInt a) = str (VInt b) -> a = b.
Proof.
  simpl. intros H.
  apply (f_equal NilZero.int_of_string) in H.
  assert (forall z, NilZero.int_of_string (NilZero.string_of_int (Z.to_int z))
                    = Some (Z.to_int z)) as Hrt.
  { intros z. apply NilZero.isi; destruct z; simpl; try discriminate;
      intros [= Hp]; by apply (DecimalPos.Unsigned.to_uint_nonnil p). }
  rewrite !Hrt in H. injection H as H. by apply DecimalZ.to_int_inj.
Qed.

(** Entities with different integer primary keys are rendered with
    different ['id'] members. *)
Theorem integer_ids_distinct
  (self : JSONAPISerializer) (r1 r2 : instance) (d1 d2 : odict pyobj)
  (z1 z2 : Z) :
  _render_resource self (Some r1) = Ok (PDict d1) ->
  _render_resource self (Some r2) = Ok (PDict d2) ->
  Dict.get (primary_key self) (attrs r1) = Some (VInt z1) ->
  Dict.get (primary_key self) (attrs r2) = Some (VInt z2) ->
  z1 <> z2 ->
  Dict.get "id" d1 <> Dict.get "id" d2.
Proof.
  intros E1 E2 H1 H2 Hne Heq.
  apply render_resource_id in E1 as (v1 & Hv1 & Hid1).
  apply render_resource_id in E2 as (v2 & Hv2 & Hid2).
  rewrite H1 in Hv1. rewrite H2 in Hv2.
  injection Hv1 as <-. injection Hv2 as <-.
  rewrite Hid1, Hid2 in Heq. injection Heq as Heq.
  by apply Hne, str_int_inj.
Qed.

Lemma integer_ids_distinct_witness :
  exists d1 d2,
    _render_resource ArticleSerializer (Some (article 3 "c")) = Ok (PDict d1)
    /\ _render_resource ArticleSerializer (Some (article 1 "a")) =
       Ok (PDict d2)
    /\ Dict.get "id" d1 <> Dict.get "id" d2.
Proof.
  eexists. eexists. split; [reflexivity|]. split; [reflexivity|].
  apply (integer_ids_distinct ArticleSerializer (article 3 "c")
           (article 1 "a") _ _ 3 1); try reflexivity.
  discriminate.
Defined.

(** ** Names without upper-case letters *)

Lemma sub_acronym_no_upper fuel s :
  Forall (fun c => is_upper c = false) s -> sub_acronym fuel s = s.
Proof.
  revert s. induction fuel as [|fuel IH]; intros s Hs; simpl; [done|].
  destruct s as [|a t]; [done|].
  apply Forall_cons in Hs as [Ha Hs].
  unfold match_acronym. simpl. rewrite Ha. simpl. f_equal. by apply IH.
Qed.

Lemma sub_camel_no_upper s :
  Forall (fun c => is_upper c = false) s -> sub_camel s = s.
Proof.
  induction s as [|a s IH]; intros Hs; [done|].
  apply Forall_cons in Hs as [Ha Hs]. destruct s as [|b t]; [done|].
  change (sub_camel (a :: b :: t)) with
    (if (is_lower a || is_digit a) && is_upper b
     then a :: "_"%char :: b :: sub_camel t
     else a :: sub_camel (b :: t)).
  apply Forall_cons in Hs as Hs'. destruct Hs' as [Hb _].
  rewrite Hb, andb_false_r. f_equal. by apply IH.
Qed.

Lemma lowered_not_upper c : lower_char c = c -> is_upper c = false.
Proof.
  destruct c as [[] [] [] [] [] [] [] []]; vm_compute; congruence.
Qed.

Lemma kebab_char_lowered c :
  lower_char c = c ->
  kebab_char c = if Ascii.eqb c "_"%char then "-"%char else c.
Proof.
  destruct c as [[] [] [] [] [] [] [] []]; vm_compute; congruence.
Qed.

Lemma kebab_char_is_lowered c : lower_char (kebab_char c) = kebab_char c.
Proof. destruct c as [[] [] [] [] [] [] [] []]; reflexivity. Qed.

Lemma dasherize_underscore_lowered x :
  is_lowered x = true ->
  inflection.dasherize (inflection.underscore x) = hyphenate x.
Proof.
  intros Hx. unfold is_lowered in Hx. rewrite forallb_forall in Hx.
  assert (forall c, In c (list_ascii_of_string x) -> lower_char c = c)
    as Hlow by (intros c Hc; by apply Ascii.eqb_eq, Hx).
  assert (Forall (fun c => is_upper c = false) (list_ascii_of_string x))
    as HF.
  { apply Forall_forall. intros c Hc. apply lowered_not_upper, Hlow.
    by apply list_elem_of_In. }
  rewrite <- (string_of_list_ascii_of_string
                (inflection.dasherize (inflection.underscore x))).
  rewrite dasherize_underscore_chars.
  rewrite sub_acronym_no_upper, sub_camel_no_upper by done.
  unfold hyphenate. f_equal. apply map_ext_in. intros c Hc.
  by apply kebab_char_lowered, Hlow.
Qed.

Lemma hyphenate_fixed y :
  (forall c, In c (list_ascii_of_string y) -> c <> "_"%char) ->
  hyphenate y = y.
Proof.
  intros Hy. unfold hyphenate.
  rewrite <- (string_of_list_ascii_of_string y) at 2. f_equal.
  rewrite <- (map_id (list_ascii_of_string y)) at 2.
  apply map_ext_in. intros c Hc. specialize (Hy c Hc).
  destruct (Ascii.eqb_spec c "_"%char); done.
Qed.

(** With [dasherize] set, a name that is already in lower case, that is
    one that [str.lower] leaves unchanged, is exposed with every underscore
    replaced by a hyphen and nothing else changed, so its length is kept. *)
Theorem snake_case_exposed (self : JSONAPISerializer) (x : string) :
  dasherize self = true -> is_lowered x = true ->
  exposed_name self x = hyphenate x /\
  String.length (exposed_name self x) = String.length x.
Proof.
  intros Hd Hx. unfold exposed_name. rewrite Hd.
  rewrite dasherize_underscore_lowered by done. split; [done|].
  unfold hyphenate.
  rewrite <- (string_of_list_ascii_of_string x) at 2.
  generalize (list_ascii_of_string x) as l.
  induction l as [|c l IH]; simpl; [done | by f_equal].
Qed.

Lemma snake_case_exposed_witness :
  exposed_name ArticleSerializer "created_at" = "created-at" /\
  String.length (exposed_name ArticleSerializer "created_at") = 10.
Proof.
  apply (snake_case_exposed ArticleSerializer "created_at");
    reflexivity.
Defined.

(** Exposing is idempotent: a name that is already an exposed name is
    exposed unchanged. *)
Theorem exposed_name_idempotent (self : JSONAPISerializer) (x : string) :
  exposed_name self (exposed_name self x) = exposed_name self x.
Proof.
  unfold exposed_name. destruct (dasherize self); [|done].
  rewrite dasherize_underscore_lowered.
  - apply hyphenate_fixed. intros c Hc.
    by apply dasherized_clean in Hc as [_ ?].
  - unfold is_lowered. apply forallb_forall. intros c Hc.
    rewrite dasherize_underscore_chars in Hc.
    apply in_map_iff in Hc as (c0 & <- & _).
    apply Ascii.eqb_eq, kebab_char_is_lowered.
Qed.

(** A capital letter outside ASCII is lowered as well. *)
Lemma exposed_name_latin1 :
  exposed_name ArticleSerializer Eclair_x = eclair_x /\
  is_lowered Eclair_x = false.
Proof. split; reflexivity. Qed.
